(** * WordPress AI searcher: the search pipeline, embedded and verified

    A shallow embedding of [src/wordpress_client.py] (class
    [WordPressClient]) and [src/ai_search.py] (class [AISearchEngine]).

    - JSON documents and the Python values decoded from them are the
      inductive type [json]; a Python [dict] is an association list read
      with first-match lookup.
    - Python exceptions are the type [exn]; the class hierarchy that the
      [except] clauses of the source test is given by boolean predicates.
    - Every method is a computation in the monad [M]: a state
      transformer that either returns a value or raises.  The state holds
      the log of HTTP requests issued so far, the wall clock, and the
      [last_request_time] field of the content client.
    - The outside world (the two HTTP endpoints, the clock's drift, the
      library functions [json.loads] and [str]) is a set of section
      variables: every theorem holds for all of them.

    Modelling choices: the exceptions of [response.json] are those of
    requests 2.27 and later (a [RequestException] that is also a
    [ValueError]); timestamps are exact rationals, not the binary64
    numbers of the source, and nothing below is stated about durations:
    the clock only decides how long [_rate_limit] sleeps, and the
    theorems are about returned values and the request log, which do
    not depend on it ([clock_blind]); a character is a character of a
    Rocq string; the message printed in verbose mode and interrupts of
    the process are left out. *)

From Stdlib Require Import String Ascii List ZArith QArith Lia Bool.
From Stdlib Require Import DecimalString.
Import ListNotations.
Open Scope string_scope.
Open Scope Z_scope.

Set Implicit Arguments.
Set Warnings "-register-all".

(** ** Python values *)

Inductive json : Type :=
| JNull
| JBool (b : bool)
| JInt (n : Z)
| JReal (q : Q)
| JStr (s : string)
| JList (l : list json)
| JDict (d : list (string * json)).

(** Lookup of a key in a [dict]. *)
Fixpoint assoc (k : string) (d : list (string * json)) : option json :=
  match d with
  | [] => None
  | (k', v) :: d' => if String.eqb k k' then Some v else assoc k d'
  end.

(** ** Exceptions

    [ConnectionError], [HTTPError] and [RequestsJSONDecodeError] are the
    classes of [requests.exceptions] raised by [requests.post] /
    [session.get], by [raise_for_status] and by [response.json];
    [JSONDecodeError] is the one of the [json] module, raised by
    [json.loads]. *)

Inductive exn : Type :=
| ConnectionError (msg : string)
| HTTPError (msg : string)
| RequestsJSONDecodeError (msg : string)
| JSONDecodeError (msg : string)
| KeyError (key : string)
| IndexError (msg : string)
| TypeError (msg : string)
| AttributeError (msg : string)
| AIError (msg : string)
| WordPressAPIError (msg : string).

(** [isinstance(e, requests.exceptions.RequestException)].  Since
    requests 2.27 the error of [response.json] derives from both
    [RequestException] and [json.JSONDecodeError]. *)
Definition is_RequestException (e : exn) : bool :=
  match e with
  | ConnectionError _ | HTTPError _ | RequestsJSONDecodeError _ => true
  | _ => false
  end.

(** [isinstance(e, ValueError)]. *)
Definition is_ValueError (e : exn) : bool :=
  match e with
  | RequestsJSONDecodeError _ | JSONDecodeError _ => true
  | _ => false
  end.

(** [isinstance(e, (KeyError, IndexError, json.JSONDecodeError))]. *)
Definition is_response_shape_error (e : exn) : bool :=
  match e with
  | KeyError _ | IndexError _ | JSONDecodeError _
  | RequestsJSONDecodeError _ => true
  | _ => false
  end.

(** [str(e)]. *)
Definition exn_str (e : exn) : string :=
  match e with
  | ConnectionError m | HTTPError m | RequestsJSONDecodeError m
  | JSONDecodeError m | IndexError m | TypeError m | AttributeError m
  | AIError m | WordPressAPIError m => m
  | KeyError k => "'" ++ k ++ "'"
  end.

(** The result of a pure Python expression: a value or an exception. *)
Definition res (A : Type) : Type := (exn + A)%type.

Definition res_bind {A B : Type} (r : res A) (f : A -> res B) : res B :=
  match r with
  | inl e => inl e
  | inr a => f a
  end.

Fixpoint res_map {A B : Type} (f : A -> res B) (l : list A) : res (list B) :=
  match l with
  | [] => inr []
  | x :: l' =>
      res_bind (f x) (fun y =>
      res_bind (res_map f l') (fun ys => inr (y :: ys)))
  end.

(** ** Python operators on decoded JSON *)

Definition not_subscriptable : exn := TypeError "object is not subscriptable".
Definition not_iterable : exn := TypeError "object is not iterable".
Definition no_get : exn := AttributeError "object has no attribute 'get'".

(** [v[k]] for a string key. *)
Definition py_getitem (v : json) (k : string) : res json :=
  match v with
  | JDict d =>
      match assoc k d with
      | Some x => inr x
      | None => inl (KeyError k)
      end
  | JList _ | JStr _ => inl (TypeError "indices must be integers")
  | _ => inl not_subscriptable
  end.

(** [v[0]]. *)
Definition py_getitem0 (v : json) : res json :=
  match v with
  | JList (x :: _) => inr x
  | JList [] => inl (IndexError "list index out of range")
  | JStr (String c _) => inr (JStr (String c ""))
  | JStr EmptyString => inl (IndexError "string index out of range")
  | JDict _ => inl (KeyError "0")
  | _ => inl not_subscriptable
  end.

(** [v == s] for a string literal [s]. *)
Definition py_eq_str (v : json) (s : string) : bool :=
  match v with
  | JStr t => String.eqb t s
  | _ => false
  end.

(** [k in v] for a string [k]: key membership in a dict, element
    membership in a list, substring test in a string. *)
Definition py_contains (k : string) (v : json) : res bool :=
  match v with
  | JDict d => inr (match assoc k d with Some _ => true | None => false end)
  | JList l => inr (existsb (fun x => py_eq_str x k) l)
  | JStr s => inr (match index 0 k s with Some _ => true | None => false end)
  | _ => inl not_iterable
  end.

(** The elements visited by [for x in v]. *)
Definition py_iter (v : json) : res (list json) :=
  match v with
  | JList l => inr l
  | JDict d => inr (map (fun kv => JStr (fst kv)) d)
  | JStr s => inr (map (fun c => JStr (String c "")) (list_ascii_of_string s))
  | _ => inl not_iterable
  end.

(** [v.get(k, default)]. *)
Definition py_get (v : json) (k : string) (default : json) : res json :=
  match v with
  | JDict d =>
      inr (match assoc k d with Some x => x | None => default end)
  | _ => inl no_get
  end.

(** [min(v, 100)]: the first argument unless [100 < v]. *)
Definition py_min_100 (v : json) : res json :=
  match v with
  | JInt n => inr (JInt (if 100 <? n then 100 else n))
  | JBool b => inr (JBool b)
  | JReal q => inr (if Qlt_le_dec (100 # 1) q then JInt 100 else JReal q)
  | _ => inl (TypeError "'<' not supported between these instances")
  end.

(** [l[:n]] for an integer [n], negative ones counting from the end. *)
Definition slice_to {A : Type} (l : list A) (n : Z) : list A :=
  if n <? 0
  then firstn (Z.to_nat (Z.of_nat (length l) + n)) l
  else firstn (Z.to_nat n) l.

(** [l[:v]] for a list [l]. *)
Definition py_slice_list {A : Type} (l : list A) (v : json) : res (list A) :=
  match v with
  | JInt n => inr (slice_to l n)
  | JBool b => inr (slice_to l (if b then 1 else 0))
  | JNull => inr l
  | _ => inl (TypeError "slice indices must be integers or None")
  end.

(** [v[:200]].  A dict raises: [TypeError] (unhashable slice) up to
    Python 3.11, [KeyError] from 3.12 on; no handler of the program
    tells the two apart in a way that changes what [search] returns. *)
Definition py_slice_200 (v : json) : res json :=
  match v with
  | JStr s => inr (JStr (substring 0 200 s))
  | JList l => inr (JList (firstn 200 l))
  | JDict _ => inl (TypeError "unhashable type: 'slice'")
  | _ => inl not_subscriptable
  end.

(** ** Records returned to the caller *)

(** The dict built by [_format_content_item]; every value is passed
    through from the raw record, whatever its JSON type. *)
Record ContentRecord : Type := mkContentRecord {
  cr_id : json;
  cr_title : json;
  cr_excerpt : json;
  cr_content : json;
  cr_url : json;
  cr_date : json;
  cr_author : json;
  cr_type : json;
  cr_slug : json
}.

(** The dict returned by [AISearchEngine.search]. *)
Record SearchResult : Type := mkSearchResult {
  query : string;
  results : list ContentRecord;
  analysis : json;
  model_used : json;
  total_results : Z
}.

(** ** The network *)

(** The HTTP requests the two classes issue.  [ChatTool] is the
    completion request of [_search_with_model] (tool declared,
    [tool_choice] auto), [ChatAnalysis] the one of [_get_ai_analysis],
    [WpList] the GET of [search_content] with its [per_page] parameter,
    [WpItem] the GET of [get_content_by_id], [WpPing] the GET of
    [test_connection]. *)
Inductive request : Type :=
| ChatTool (model : string) (user_query : string)
| ChatAnalysis (model : string) (user_query : string) (formatted_results : string)
| WpList (per_page : json)
| WpItem (content_id : Z)
| WpPing.

(** The body of an HTTP response: JSON, or text that [response.json]
    rejects with the given message. *)
Inductive body : Type :=
| NotJSON (err : string)
| JSON (v : json).

(** What the network does with a request: no response at all (refused
    connection, timeout, ...), or a response with a status code, the text
    [raise_for_status] reports for it, and a body. *)
Inductive http_reply : Type :=
| NoReply (err : string)
| Reply (status : Z) (reason : string) (b : body).

Record response : Type := mkResponse {
  status_code : Z;
  status_reason : string;
  resp_body : body
}.

(** ** Program state *)

Record state : Type := mkState {
  trace : list request;          (* requests issued so far, oldest first *)
  now : Q;                       (* wall clock, in seconds *)
  ticks : nat;                   (* number of clock events so far *)
  last_request_time : Q          (* WordPressClient.last_request_time *)
}.

(** Computations: read and change the state, then return or raise. *)
Definition M (A : Type) : Type := state -> res A * state.

Definition ret {A : Type} (a : A) : M A := fun s => (inr a, s).

Definition raise {A : Type} (e : exn) : M A := fun s => (inl e, s).

Definition bind {A B : Type} (c : M A) (f : A -> M B) : M B :=
  fun s =>
    match c s with
    | (inl e, s') => (inl e, s')
    | (inr a, s') => f a s'
    end.

(** [try: c  except ... as e: h e]; a handler that does not match the
    class of [e] re-raises it. *)
Definition try_except {A : Type} (c : M A) (h : exn -> M A) : M A :=
  fun s =>
    match c s with
    | (inl e, s') => h e s'
    | (inr a, s') => (inr a, s')
    end.

Definition lift {A : Type} (r : res A) : M A := fun s => (r, s).

Declare Scope py_scope.
Delimit Scope py_scope with py.
Notation "x <- c ;; k" := (bind c (fun x => k))
  (at level 61, c at next level, right associativity) : py_scope.
Notation "c ;;; k" := (bind c (fun _ => k))
  (at level 61, right associativity) : py_scope.
Open Scope py_scope.

Definition newline : string := String (ascii_of_nat 10) "".

(** [len(l)]. *)
Definition len {A : Type} (l : list A) : Z := Z.of_nat (length l).

Section Pipeline.

(** ** The outside world *)

(** [net history r] is what the network answers to request [r] when
    [history] lists the requests issued before it. *)
Variable net : list request -> request -> http_reply.

(** [lag k] is the wall-clock time that passes during the [k]-th clock
    event (a reading of the clock, a sleep, an HTTP exchange) beyond
    what the event itself asks for. *)
Variable lag : nat -> Q.

(** [json.loads] on a [str]: the decoded value, or nothing when the text
    is not JSON. *)
Variable json_loads : string -> option json.

(** The text an f-string interpolates for a value. *)
Variable py_str : json -> string.

(** [config.ai_model], [config.fallback_models], [config.max_results]. *)
Variable current_model : string.
Variable fallback_models : list string.
Variable config_max_results : Z.

(** ** Clock and transport *)

(** One clock event lasting at least [d] seconds. *)
Definition elapse (d : Q) (s : state) : state :=
  mkState (trace s) (now s + d + lag (ticks s))%Q (S (ticks s))
          (last_request_time s).

(** [time.time()]. *)
Definition time_time : M Q :=
  fun s => let s' := elapse 0 s in (inr (now s'), s').

(** [time.sleep(d)]. *)
Definition time_sleep (d : Q) : M unit :=
  fun s => (inr tt, elapse d s).

(** [requests.post(...)] and [session.get(...)]: the request is logged,
    time passes, and the call returns the response or raises. *)
Definition http (r : request) : M response :=
  fun s =>
    let s' := elapse 0 s in
    let s'' := mkState (trace s ++ [r]) (now s') (ticks s')
                       (last_request_time s') in
    match net (trace s) r with
    | NoReply err => (inl (ConnectionError err), s'')
    | Reply st reason b => (inr (mkResponse st reason b), s'')
    end.

(** [response.raise_for_status()]: raises for 4xx and 5xx codes. *)
Definition raise_for_status (r : response) : M unit :=
  if (400 <=? status_code r) && (status_code r <? 600)
  then raise (HTTPError (status_reason r))
  else ret tt.

(** [response.json()]. *)
Definition response_json (r : response) : M json :=
  match resp_body r with
  | JSON v => ret v
  | NotJSON err => raise (RequestsJSONDecodeError err)
  end.

(** ** WordPressClient *)

Definition min_request_interval : Q := 1 # 10.

Definition set_last_request_time (t : Q) : M unit :=
  fun s => (inr tt, mkState (trace s) (now s) (ticks s) t).

Definition get_last_request_time : M Q :=
  fun s => (inr (last_request_time s), s).

(** The arithmetic of the source is binary64; here it is exact. *)
Definition _rate_limit : M unit :=
  current_time <- time_time ;;
  last <- get_last_request_time ;;
  let time_since_last := (current_time - last)%Q in
  (if Qlt_le_dec time_since_last min_request_interval
   then time_sleep (min_request_interval - time_since_last)%Q
   else ret tt) ;;;
  t <- time_time ;;
  set_last_request_time t.

Definition _format_content_item (item : json) : res ContentRecord :=
  res_bind (py_get item "author" (JDict [])) (fun author_info =>
  let author_name :=
    match author_info with
    | JDict d =>
        match assoc "name" d with
        | Some x => x
        | None => JStr "Unknown"
        end
    | _ => JStr "Unknown"
    end in
  res_bind (py_get item "id" JNull) (fun id =>
  res_bind (py_get item "title" (JStr "Untitled")) (fun title =>
  res_bind (py_get item "excerpt" (JStr "")) (fun excerpt =>
  res_bind (py_get item "content" (JStr "")) (fun content =>
  res_bind (py_get item "url" (JStr "")) (fun url =>
  res_bind (py_get item "date" (JStr "")) (fun date =>
  res_bind (py_get item "type" (JStr "post")) (fun type =>
  res_bind (py_get item "slug" (JStr "")) (fun slug =>
  inr (mkContentRecord id title excerpt content url date author_name
                       type slug)))))))))).

(** The [query] argument is not used: every item is kept. *)
Definition _filter_content_by_query (content : json) (query : json)
  : res (list ContentRecord) :=
  res_bind (py_iter content) (res_map _format_content_item).

Definition search_content (query : json) (max_results : json)
  : M (list ContentRecord) :=
  let max_results :=
    match max_results with
    | JNull => JInt config_max_results
    | _ => max_results
    end in
  _rate_limit ;;;
  try_except
    (per_page <- lift (py_min_100 max_results) ;;
     response <- http (WpList per_page) ;;
     raise_for_status response ;;;
     all_content <- response_json response ;;
     filtered_content <- lift (_filter_content_by_query all_content query) ;;
     lift (py_slice_list filtered_content max_results))
    (fun e =>
       if is_RequestException e
       then raise (WordPressAPIError
                     ("WordPress API request failed: " ++ exn_str e))
       else if is_ValueError e
       then raise (WordPressAPIError
                     ("Invalid response from WordPress API: " ++ exn_str e))
       else raise e).

Definition get_content_by_id (content_id : Z) : M (option ContentRecord) :=
  _rate_limit ;;;
  try_except
    (response <- http (WpItem content_id) ;;
     raise_for_status response ;;;
     item <- response_json response ;;
     r <- lift (_format_content_item item) ;;
     ret (Some r))
    (fun e => if is_RequestException e then ret None else raise e).

Definition test_connection : M bool :=
  try_except
    (_rate_limit ;;;
     response <- http WpPing ;;
     raise_for_status response ;;;
     ret true)
    (fun e => if is_RequestException e then ret false else raise e).

(** ** AISearchEngine *)

Definition retrieval_tool : string := "search_wordpress".

(** One entry of the numbered list sent to the analysis request. *)
Definition format_entry (i : Z) (item : ContentRecord) : res string :=
  res_bind (py_slice_200 (cr_excerpt item)) (fun short =>
  inr (newline ++ "Result " ++ py_str (JInt i) ++ ":" ++ newline ++
       "Title: " ++ py_str (cr_title item) ++ newline ++
       "Excerpt: " ++ py_str short ++ "..." ++ newline ++
       "URL: " ++ py_str (cr_url item) ++ newline ++
       "Author: " ++ py_str (cr_author item) ++ newline ++
       "Date: " ++ py_str (cr_date item) ++ newline)).

(** The loop over [enumerate(results, i)]. *)
Fixpoint format_entries (i : Z) (l : list ContentRecord) : res (list string) :=
  match l with
  | [] => inr []
  | item :: l' =>
      res_bind (format_entry i item) (fun x =>
      res_bind (format_entries (i + 1) l') (fun xs => inr (x :: xs)))
  end.

Definition _format_results_for_ai (l : list ContentRecord) : res string :=
  match l with
  | [] => inr "No content found."
  | _ => res_bind (format_entries 1 l) (fun formatted =>
         inr (String.concat newline formatted))
  end.

Definition analysis_unavailable : string :=
  "Unable to analyze results at this time.".

Definition _get_ai_analysis (user_query : string) (formatted_results : string)
  : M json :=
  try_except
    (response <- http (ChatAnalysis current_model user_query
                                    formatted_results) ;;
     raise_for_status response ;;;
     result <- response_json response ;;
     choices <- lift (py_getitem result "choices") ;;
     choice <- lift (py_getitem0 choices) ;;
     message <- lift (py_getitem choice "message") ;;
     lift (py_getitem message "content"))
    (fun e => if is_RequestException e
              then ret (JStr analysis_unavailable)
              else raise e).

(** [json.loads(v)]: only a [str] is accepted. *)
Definition py_json_loads (v : json) : res json :=
  match v with
  | JStr s =>
      match json_loads s with
      | Some a => inr a
      | None => inl (JSONDecodeError "malformed JSON")
      end
  | _ => inl (TypeError "the JSON object must be str, bytes or bytearray")
  end.

(** The two [args.get] lines of [_process_ai_response]: the query and
    the result limit handed to [search_content]. *)
Definition tool_arguments (args : json) (user_query : string)
  (max_results : json) : res (json * json) :=
  res_bind (py_get args "query" (JStr user_query)) (fun search_query =>
  res_bind (py_get args "maxResults" max_results) (fun search_max_results =>
  inr (search_query, search_max_results))).

(** The body of [if tool_call['function']['name'] == 'search_wordpress']:
    decode the arguments, fetch, format, ask for the analysis, and build
    the result. *)
Definition execute_tool_call (ai_response : json) (user_query : string)
  (max_results : json) (tool_call : json) : M SearchResult :=
  f <- lift (py_getitem tool_call "function") ;;
  arguments <- lift (py_getitem f "arguments") ;;
  args <- lift (py_json_loads arguments) ;;
  a <- lift (tool_arguments args user_query max_results) ;;
  wordpress_results <- search_content (fst a) (snd a) ;;
  formatted_results <- lift (_format_results_for_ai wordpress_results) ;;
  analysis <- _get_ai_analysis user_query formatted_results ;;
  model <- lift (py_getitem ai_response "model") ;;
  ret (mkSearchResult user_query wordpress_results analysis
                      model (len wordpress_results)).

(** The loop [for tool_call in tool_calls]: [Some] result when a call
    names the retrieval tool, [None] when the loop runs to its end. *)
Fixpoint tool_calls_loop (ai_response : json) (user_query : string)
  (max_results : json) (tool_calls : list json) : M (option SearchResult) :=
  match tool_calls with
  | [] => ret None
  | tool_call :: rest =>
      f <- lift (py_getitem tool_call "function") ;;
      name <- lift (py_getitem f "name") ;;
      if py_eq_str name retrieval_tool
      then
        r <- execute_tool_call ai_response user_query max_results tool_call ;;
        ret (Some r)
      else tool_calls_loop ai_response user_query max_results rest
  end.

Definition no_relevant_content : string := "No relevant content found.".

Definition _process_ai_response (ai_response : json) (user_query : string)
  (max_results : json) : M SearchResult :=
  try_except
    (choices <- lift (py_getitem ai_response "choices") ;;
     choice <- lift (py_getitem0 choices) ;;
     message <- lift (py_getitem choice "message") ;;
     has_tool_calls <- lift (py_contains "tool_calls" message) ;;
     found <- (if has_tool_calls : bool
               then
                 tool_calls <- lift (py_getitem message "tool_calls") ;;
                 calls <- lift (py_iter tool_calls) ;;
                 tool_calls_loop ai_response user_query max_results calls
               else ret None) ;;
     match found with
     | Some r => ret r
     | None =>
         content <- lift (py_get message "content"
                                 (JStr no_relevant_content)) ;;
         model <- lift (py_getitem ai_response "model") ;;
         ret (mkSearchResult user_query [] content model 0)
     end)
    (fun e =>
       if is_response_shape_error e
       then raise (AIError ("Failed to process AI response: " ++ exn_str e))
       else raise e).

Definition _search_with_model (user_query : string) (max_results : json)
  (model : string) : M SearchResult :=
  try_except
    (response <- http (ChatTool model user_query) ;;
     raise_for_status response ;;;
     result <- response_json response ;;
     _process_ai_response result user_query max_results)
    (fun e =>
       if is_RequestException e
       then raise (AIError ("OpenRouter API request failed: " ++ exn_str e))
       else raise e).

Definition _fallback_search (user_query : string) (max_results : json)
  : M SearchResult :=
  try_except
    (results <- search_content (JStr user_query) max_results ;;
     ret (mkSearchResult user_query results
            (JStr ("Found " ++ py_str (JInt (len results)) ++
                   " results for your query. (Fallback search - AI analysis unavailable)"))
            (JStr "fallback") (len results)))
    (fun e =>
       match e with
       | WordPressAPIError _ =>
           ret (mkSearchResult user_query []
                  (JStr ("Search failed: " ++ exn_str e))
                  (JStr "error") 0)
       | _ => raise e
       end).

(** The loop [for model in ...: try: return ... except Exception:
    continue], followed by the fallback once the list is exhausted.
    (The message printed in verbose mode is not modelled.) *)
Fixpoint cascade (user_query : string) (max_results : json)
  (models : list string) : M SearchResult :=
  match models with
  | [] => _fallback_search user_query max_results
  | model :: rest =>
      try_except (_search_with_model user_query max_results model)
                 (fun _ => cascade user_query max_results rest)
  end.

Definition search (user_query : string) (max_results : option Z)
  : M SearchResult :=
  let max_results :=
    match max_results with
    | None => config_max_results
    | Some n => n
    end in
  cascade user_query (JInt max_results) ([current_model] ++ fallback_models).

(** * Reasoning about runs

    What a method returns and which requests it issues depend on the
    state only through the request log: the clock decides how long
    [_rate_limit] sleeps and nothing else.  [clock_blind] states this,
    and [run] executes a computation on a log alone. *)

Definition clock_blind {A : Type} (c : M A) : Prop :=
  forall s1 s2, trace s1 = trace s2 ->
    fst (c s1) = fst (c s2) /\ trace (snd (c s1)) = trace (snd (c s2)).

Definition at_log (h : list request) : state := mkState h 0 0 0.

Definition run {A : Type} (c : M A) (h : list request)
  : res A * list request :=
  (fst (c (at_log h)), trace (snd (c (at_log h)))).

Lemma run_sound {A : Type} (c : M A) :
  clock_blind c ->
  forall s, (fst (c s), trace (snd (c s))) = run c (trace s).
Proof.
  intros B s. unfold run.
  destruct (B s (at_log (trace s)) eq_refl) as [E1 E2].
  now rewrite E1, E2.
Qed.

Lemma blind_ret {A : Type} (a : A) : clock_blind (ret a).
Proof. intros s1 s2 E. now cbn. Qed.

Lemma blind_raise {A : Type} (e : exn) : clock_blind (@raise A e).
Proof. intros s1 s2 E. now cbn. Qed.

Lemma blind_lift {A : Type} (r : res A) : clock_blind (lift r).
Proof. intros s1 s2 E. now cbn. Qed.

Lemma blind_bind {A B : Type} (c : M A) (f : A -> M B) :
  clock_blind c -> (forall a, clock_blind (f a)) -> clock_blind (bind c f).
Proof.
  intros Bc Bf s1 s2 E. unfold bind.
  destruct (Bc s1 s2 E) as [E1 E2].
  destruct (c s1) as [[e1 | a1] t1], (c s2) as [[e2 | a2] t2];
    cbn in E1, E2; try discriminate.
  - injection E1 as ->. now cbn.
  - injection E1 as ->. now apply Bf.
Qed.

Lemma blind_try_except {A : Type} (c : M A) (h : exn -> M A) :
  clock_blind c -> (forall e, clock_blind (h e)) ->
  clock_blind (try_except c h).
Proof.
  intros Bc Bh s1 s2 E. unfold try_except.
  destruct (Bc s1 s2 E) as [E1 E2].
  destruct (c s1) as [[e1 | a1] t1], (c s2) as [[e2 | a2] t2];
    cbn in E1, E2; try discriminate.
  - injection E1 as ->. now apply Bh.
  - injection E1 as ->. now cbn.
Qed.

Lemma blind_http (r : request) : clock_blind (http r).
Proof.
  intros s1 s2 E. unfold http. rewrite E.
  destruct (net (trace s2) r); now cbn.
Qed.

Lemma blind_raise_for_status (r : response) : clock_blind (raise_for_status r).
Proof.
  unfold raise_for_status.
  destruct (_ && _); [apply blind_raise | apply blind_ret].
Qed.

Lemma blind_response_json (r : response) : clock_blind (response_json r).
Proof.
  unfold response_json.
  destruct (resp_body r); [apply blind_raise | apply blind_ret].
Qed.

(** [_rate_limit] never raises and issues no request. *)
Lemma rate_limit_returns (s : state) :
  fst (_rate_limit s) = inr tt /\ trace (snd (_rate_limit s)) = trace s.
Proof.
  unfold _rate_limit, bind, time_time, get_last_request_time,
    set_last_request_time, time_sleep, ret.
  cbn. destruct (Qlt_le_dec _ _); now cbn.
Qed.

Lemma blind_rate_limit : clock_blind _rate_limit.
Proof.
  intros s1 s2 E.
  destruct (rate_limit_returns s1) as [-> ->].
  destruct (rate_limit_returns s2) as [-> ->].
  now split.
Qed.

Create HintDb blind.

#[local] Hint Resolve blind_ret blind_raise blind_lift blind_http
  blind_raise_for_status blind_response_json blind_rate_limit : blind.

Ltac blind_step :=
  match goal with
  | |- clock_blind (bind _ _) => apply blind_bind; [| intros ?]
  | |- clock_blind (try_except _ _) => apply blind_try_except; [| intros ?]
  | |- clock_blind (if ?b then _ else _) => destruct b
  | |- clock_blind (match ?x with _ => _ end) => destruct x
  | |- clock_blind _ => solve [auto with blind]
  end.

Ltac blind_auto := repeat blind_step.

Lemma blind_search_content (q mr : json) : clock_blind (search_content q mr).
Proof. unfold search_content. blind_auto. Qed.

Lemma blind_get_content_by_id (i : Z) : clock_blind (get_content_by_id i).
Proof. unfold get_content_by_id. blind_auto. Qed.

Lemma blind_test_connection : clock_blind test_connection.
Proof. unfold test_connection. blind_auto. Qed.

Lemma blind_get_ai_analysis (q f : string) : clock_blind (_get_ai_analysis q f).
Proof. unfold _get_ai_analysis. blind_auto. Qed.

#[local] Hint Resolve blind_search_content blind_get_content_by_id
  blind_test_connection blind_get_ai_analysis : blind.

Lemma blind_execute_tool_call (r : json) (q : string) (mr tc : json) :
  clock_blind (execute_tool_call r q mr tc).
Proof. unfold execute_tool_call. blind_auto. Qed.

#[local] Hint Resolve blind_execute_tool_call : blind.

Lemma blind_tool_calls_loop (r : json) (q : string) (mr : json)
  (calls : list json) : clock_blind (tool_calls_loop r q mr calls).
Proof.
  induction calls as [| c calls IH]; cbn [tool_calls_loop]; blind_auto.
Qed.

#[local] Hint Resolve blind_tool_calls_loop : blind.

Lemma blind_process_ai_response (r : json) (q : string) (mr : json) :
  clock_blind (_process_ai_response r q mr).
Proof. unfold _process_ai_response. blind_auto. Qed.

#[local] Hint Resolve blind_process_ai_response : blind.

Lemma blind_search_with_model (q : string) (mr : json) (m : string) :
  clock_blind (_search_with_model q mr m).
Proof. unfold _search_with_model. blind_auto. Qed.

Lemma blind_fallback_search (q : string) (mr : json) :
  clock_blind (_fallback_search q mr).
Proof. unfold _fallback_search. blind_auto. Qed.

#[local] Hint Resolve blind_search_with_model blind_fallback_search : blind.

Lemma blind_cascade (q : string) (mr : json) (models : list string) :
  clock_blind (cascade q mr models).
Proof.
  induction models as [| m models IH]; cbn [cascade]; blind_auto.
Qed.

#[local] Hint Resolve blind_cascade : blind.

Lemma blind_search (q : string) (mr : option Z) : clock_blind (search q mr).
Proof. unfold search. auto with blind. Qed.

(** ** Running on a log *)

Lemma run_ret {A : Type} (a : A) (h : list request) :
  run (ret a) h = (inr a, h).
Proof. reflexivity. Qed.

Lemma run_raise {A : Type} (e : exn) (h : list request) :
  run (@raise A e) h = (inl e, h).
Proof. reflexivity. Qed.

Lemma run_lift {A : Type} (r : res A) (h : list request) :
  run (lift r) h = (r, h).
Proof. reflexivity. Qed.

Lemma run_bind {A B : Type} (c : M A) (f : A -> M B) (h : list request) :
  (forall a, clock_blind (f a)) ->
  run (bind c f) h =
  match run c h with
  | (inl e, h') => (inl e, h')
  | (inr a, h') => run (f a) h'
  end.
Proof.
  intros Bf. unfold run, bind.
  destruct (c (at_log h)) as [[e | a] s']; cbn [fst snd]; [reflexivity |].
  destruct (Bf a s' (at_log (trace s')) eq_refl) as [E1 E2].
  now rewrite E1, E2.
Qed.

Lemma run_try_except {A : Type} (c : M A) (k : exn -> M A)
  (h : list request) :
  (forall e, clock_blind (k e)) ->
  run (try_except c k) h =
  match run c h with
  | (inl e, h') => run (k e) h'
  | (inr a, h') => (inr a, h')
  end.
Proof.
  intros Bk. unfold run, try_except.
  destruct (c (at_log h)) as [[e | a] s']; cbn [fst snd]; [| reflexivity].
  destruct (Bk e s' (at_log (trace s')) eq_refl) as [E1 E2].
  now rewrite E1, E2.
Qed.

Lemma run_rate_limit (h : list request) : run _rate_limit h = (inr tt, h).
Proof.
  unfold run. destruct (rate_limit_returns (at_log h)) as [-> ->].
  reflexivity.
Qed.

(** What [raise_for_status] and [response.json] make of a reply. *)
Definition decoded (rep : http_reply) : res json :=
  match rep with
  | NoReply err => inl (ConnectionError err)
  | Reply st reason b =>
      if (400 <=? st) && (st <? 600)
      then inl (HTTPError reason)
      else match b with
           | JSON v => inr v
           | NotJSON err => inl (RequestsJSONDecodeError err)
           end
  end.

Lemma decoded_error (rep : http_reply) (e : exn) :
  decoded rep = inl e -> is_RequestException e = true.
Proof.
  destruct rep as [err | st reason [err | v]]; cbn;
    try destruct (_ && _); intros E; inversion E; reflexivity.
Qed.

(** The pattern [response = http(r); response.raise_for_status();
    x = response.json(); ...] that opens every method. *)
Lemma run_exchange {A : Type} (r : request) (k : json -> M A)
  (h : list request) :
  (forall v, clock_blind (k v)) ->
  run (response <- http r ;;
       raise_for_status response ;;;
       x <- response_json response ;;
       k x) h =
  match decoded (net h r) with
  | inl e => (inl e, (h ++ [r])%list)
  | inr v => run (k v) (h ++ [r])%list
  end.
Proof.
  intros Bk. unfold run, bind, http, decoded. cbn [at_log trace].
  destruct (net h r) as [err | st reason [err | v]]; cbn [fst snd trace];
    try reflexivity;
    unfold raise_for_status; cbn [status_code status_reason];
    destruct (_ && _); cbn; try reflexivity.
  match goal with
  | |- context [k v ?s] =>
      destruct (Bk v s (at_log (h ++ [r])%list) eq_refl) as [E1 E2]
  end.
  now rewrite E1, E2.
Qed.

(** ** The content client in closed form *)

(** [TypeError] and [AttributeError]: the exceptions that no [except]
    clause of the two classes names. *)
Definition untyped_error (e : exn) : Prop :=
  match e with
  | TypeError _ | AttributeError _ => True
  | _ => False
  end.

Lemma untyped_not_request (e : exn) :
  untyped_error e -> is_RequestException e = false /\ is_ValueError e = false.
Proof. destruct e; cbn; intros []; auto. Qed.

Lemma untyped_not_wordpress (e : exn) :
  untyped_error e -> forall m, e <> WordPressAPIError m.
Proof. destruct e; cbn; intros [] m; discriminate. Qed.

Lemma py_min_100_error (v : json) (e : exn) :
  py_min_100 v = inl e -> untyped_error e.
Proof.
  destruct v; cbn; intros E; inversion E; exact I.
Qed.

Lemma py_slice_list_error {A : Type} (l : list A) (v : json) (e : exn) :
  py_slice_list l v = inl e -> untyped_error e.
Proof. destruct v; cbn; intros E; inversion E; exact I. Qed.

Lemma format_content_item_dict (d : list (string * json)) :
  exists c, _format_content_item (JDict d) = inr c.
Proof. cbn. eauto. Qed.

Lemma format_content_item_error (item : json) (e : exn) :
  _format_content_item item = inl e -> e = no_get.
Proof.
  destruct item; cbn; intros E; inversion E; reflexivity.
Qed.

Lemma res_map_format_error (l : list json) (e : exn) :
  res_map _format_content_item l = inl e -> e = no_get.
Proof.
  induction l as [| x l IH]; cbn [res_map]; [discriminate |].
  destruct (_format_content_item x) as [e' | c] eqn:E; cbn [res_bind].
  - intros E'. inversion E'; subst. eapply format_content_item_error; eauto.
  - destruct (res_map _format_content_item l); cbn [res_bind];
      [intros E'; inversion E'; subst; auto | discriminate].
Qed.

Lemma filter_content_error (v q : json) (e : exn) :
  _filter_content_by_query v q = inl e -> untyped_error e.
Proof.
  unfold _filter_content_by_query.
  destruct (py_iter v) as [e' | l] eqn:E; cbn [res_bind].
  - intros E'. inversion E'; subst. destruct v; inversion E; exact I.
  - intros E'. apply res_map_format_error in E'. subst. exact I.
Qed.

(** [max_results] after [if max_results is None: ...]. *)
Definition limit_of (max_results : json) : json :=
  match max_results with
  | JNull => JInt config_max_results
  | _ => max_results
  end.

(** What [search_content] makes of the reply to its GET. *)
Definition fetch_result (q limit : json) (rep : http_reply)
  : res (list ContentRecord) :=
  match decoded rep with
  | inl e =>
      inl (WordPressAPIError ("WordPress API request failed: " ++ exn_str e))
  | inr v =>
      res_bind (_filter_content_by_query v q) (fun l => py_slice_list l limit)
  end.

Lemma run_search_content (q mr : json) (h : list request) :
  run (search_content q mr) h =
  match py_min_100 (limit_of mr) with
  | inl e => (inl e, h)
  | inr p => (fetch_result q (limit_of mr) (net h (WpList p)),
              (h ++ [WpList p])%list)
  end.
Proof.
  unfold search_content. fold (limit_of mr).
  rewrite run_bind by (intros; blind_auto).
  rewrite run_rate_limit.
  rewrite run_try_except by (intros; blind_auto).
  rewrite run_bind by (intros; blind_auto).
  rewrite run_lift.
  destruct (py_min_100 (limit_of mr)) as [e | p] eqn:Emin.
  - destruct (untyped_not_request _ (py_min_100_error _ Emin)) as [-> ->].
    apply run_raise.
  - rewrite run_exchange by (intros; blind_auto).
    unfold fetch_result.
    destruct (decoded (net h (WpList p))) as [e | v] eqn:Edec.
    + rewrite (decoded_error _ Edec). apply run_raise.
    + rewrite run_bind by (intros; blind_auto).
      rewrite run_lift.
      destruct (_filter_content_by_query v q) as [e | l] eqn:Ef;
        cbn [res_bind].
      * destruct (untyped_not_request _ (filter_content_error _ _ Ef))
          as [-> ->].
        apply run_raise.
      * rewrite run_lift.
        destruct (py_slice_list l (limit_of mr)) as [e | l'] eqn:Es;
          [| reflexivity].
        destruct (untyped_not_request _ (py_slice_list_error _ _ Es))
          as [-> ->].
        apply run_raise.
Qed.

(** [search_content] raises a [WordPressAPIError] or an untyped error. *)
Lemma fetch_result_error (q limit : json) (rep : http_reply) (e : exn) :
  fetch_result q limit rep = inl e ->
  (exists m, e = WordPressAPIError m) \/ untyped_error e.
Proof.
  unfold fetch_result.
  destruct (decoded rep) as [e' | v].
  - intros E. inversion E. eauto.
  - destruct (_filter_content_by_query v q) as [e' | l] eqn:Ef;
      cbn [res_bind]; intros E.
    + inversion E; subst. right. eapply filter_content_error; eauto.
    + right. eapply py_slice_list_error; eauto.
Qed.

(** * Content normalization *)

(** The [name] entry of the nested author object of a raw record;
    [None] when the record has no [author], when [author] is not an
    object, and when the object has no [name]. *)
Definition author_name (item : list (string * json)) : option json :=
  match assoc "author" item with
  | Some (JDict a) => assoc "name" a
  | _ => None
  end.

(** [item.get(k, default)] on the entries of a raw record. *)
Definition field (item : list (string * json)) (k : string) (default : json)
  : json :=
  match assoc k item with
  | Some x => x
  | None => default
  end.

(** C8.  Formatting a raw record (a JSON object, whatever its entries)
    never raises; formatting the same raw record twice, as
    [_filter_content_by_query] does for a list that holds it twice,
    yields two identical content records; a record whose [author.name]
    is missing gets the author [Unknown], whatever the shape of
    [author]; and every other absent field takes its default. *)
Theorem format_content_item_normalizes (item : list (string * json)) :
  exists c,
    _format_content_item (JDict item) = inr c /\
    res_map _format_content_item [JDict item; JDict item] = inr [c; c] /\
    (author_name item = None -> cr_author c = JStr "Unknown") /\
    (forall n, author_name item = Some n -> cr_author c = n) /\
    cr_id c = field item "id" JNull /\
    cr_title c = field item "title" (JStr "Untitled") /\
    cr_excerpt c = field item "excerpt" (JStr "") /\
    cr_content c = field item "content" (JStr "") /\
    cr_url c = field item "url" (JStr "") /\
    cr_date c = field item "date" (JStr "") /\
    cr_type c = field item "type" (JStr "post") /\
    cr_slug c = field item "slug" (JStr "").
Proof.
  eexists. split; [reflexivity |]. split; [reflexivity |].
  unfold author_name, field. cbn [cr_author cr_id cr_title cr_excerpt
    cr_content cr_url cr_date cr_type cr_slug].
  repeat split; try reflexivity.
  - destruct (assoc "author" item) as [[] |]; try reflexivity.
    intros ->. reflexivity.
  - intros n. destruct (assoc "author" item) as [[] |]; try discriminate.
    intros ->. reflexivity.
Qed.

(** * Lookup by identifier *)

(** C7, as the code has it.  [get_content_by_id] returns [None] when the
    request gets no response, when the status is 4xx or 5xx, and when the
    body is not JSON; it returns the normalized record when the body is
    a JSON object; and it raises [AttributeError] when the body is JSON
    of any other shape. *)
Theorem get_content_by_id_outcome (content_id : Z) (s : state) :
  fst (get_content_by_id content_id s) =
  match net (trace s) (WpItem content_id) with
  | NoReply _ => inr None
  | Reply st _ b =>
      if (400 <=? st) && (st <? 600) then inr None
      else match b with
           | NotJSON _ => inr None
           | JSON (JDict d) =>
               res_bind (_format_content_item (JDict d))
                        (fun c => inr (Some c))
           | JSON _ => inl no_get
           end
  end.
Proof.
  pose proof (run_sound (blind_get_content_by_id content_id) s) as R.
  apply (f_equal fst) in R. cbn [fst] in R. rewrite R. clear R.
  unfold get_content_by_id.
  rewrite run_bind by (intros; blind_auto).
  rewrite run_rate_limit.
  rewrite run_try_except by (intros; blind_auto).
  rewrite run_exchange by (intros; blind_auto).
  unfold decoded.
  destruct (net (trace s) (WpItem content_id)) as [err | st reason b].
  - reflexivity.
  - destruct (_ && _); [reflexivity |].
    destruct b as [err | v]; [reflexivity |].
    destruct v; reflexivity.
Qed.

(** * The requests a method issues *)

(** [emits P c]: running [c] only appends requests, all satisfying [P]. *)
Definition emits {A : Type} (P : request -> Prop) (c : M A) : Prop :=
  forall s, exists added,
    trace (snd (c s)) = (trace s ++ added)%list /\ Forall P added.

Lemma emits_nothing {A : Type} (P : request -> Prop) (c : M A) :
  (forall s, trace (snd (c s)) = trace s) -> emits P c.
Proof.
  intros E s. exists []. rewrite E, app_nil_r. auto.
Qed.

Lemma emits_ret {A : Type} (P : request -> Prop) (a : A) : emits P (ret a).
Proof. now apply emits_nothing. Qed.

Lemma emits_raise {A : Type} (P : request -> Prop) (e : exn) :
  emits P (@raise A e).
Proof. now apply emits_nothing. Qed.

Lemma emits_lift {A : Type} (P : request -> Prop) (r : res A) :
  emits P (lift r).
Proof. now apply emits_nothing. Qed.

Lemma emits_rate_limit (P : request -> Prop) : emits P _rate_limit.
Proof. apply emits_nothing. intros s. apply rate_limit_returns. Qed.

Lemma emits_bind {A B : Type} (P : request -> Prop) (c : M A)
  (f : A -> M B) :
  emits P c -> (forall a, emits P (f a)) -> emits P (bind c f).
Proof.
  intros Ec Ef s. unfold bind.
  destruct (Ec s) as (l1 & T1 & F1).
  destruct (c s) as [[e | a] s1]; cbn [snd] in *.
  - eauto.
  - destruct (Ef a s1) as (l2 & T2 & F2).
    exists (l1 ++ l2)%list. rewrite T2, T1, app_assoc.
    split; [reflexivity | now apply Forall_app].
Qed.

Lemma emits_try_except {A : Type} (P : request -> Prop) (c : M A)
  (k : exn -> M A) :
  emits P c -> (forall e, emits P (k e)) -> emits P (try_except c k).
Proof.
  intros Ec Ek s. unfold try_except.
  destruct (Ec s) as (l1 & T1 & F1).
  destruct (c s) as [[e | a] s1]; cbn [snd] in *.
  - destruct (Ek e s1) as (l2 & T2 & F2).
    exists (l1 ++ l2)%list. rewrite T2, T1, app_assoc.
    split; [reflexivity | now apply Forall_app].
  - eauto.
Qed.

Lemma emits_http (P : request -> Prop) (r : request) :
  P r -> emits P (http r).
Proof.
  intros Pr s. exists [r]. unfold http.
  destruct (net (trace s) r); cbn; auto.
Qed.

Lemma emits_raise_for_status (P : request -> Prop) (r : response) :
  emits P (raise_for_status r).
Proof.
  unfold raise_for_status.
  destruct (_ && _); [apply emits_raise | apply emits_ret].
Qed.

Lemma emits_response_json (P : request -> Prop) (r : response) :
  emits P (response_json r).
Proof.
  unfold response_json.
  destruct (resp_body r); [apply emits_raise | apply emits_ret].
Qed.

Lemma emits_weaken {A : Type} (P Q : request -> Prop) (c : M A) :
  (forall r, P r -> Q r) -> emits P c -> emits Q c.
Proof.
  intros PQ E s. destruct (E s) as (l & T & F).
  exists l. split; [exact T |]. eapply Forall_impl; eauto.
Qed.

Create HintDb emits.

#[local] Hint Resolve emits_ret emits_raise emits_lift emits_rate_limit
  emits_raise_for_status emits_response_json : emits.

Ltac emits_step :=
  match goal with
  | |- emits _ (bind _ _) => apply emits_bind; [| intros ?]
  | |- emits _ (try_except _ _) => apply emits_try_except; [| intros ?]
  | |- emits _ (http _) => apply emits_http; cbn; solve [auto]
  | |- emits _ (if ?b then _ else _) => destruct b
  | |- emits _ (match ?x with _ => _ end) => destruct x
  | |- emits _ _ => solve [auto with emits]
  end.

Ltac emits_auto := repeat emits_step.

(** The requests behind a tool invocation: the content GET, and the
    analysis request, always addressed to [current_model] and carrying
    the user's query. *)
Definition retrieval_request (user_query : string) (r : request) : Prop :=
  match r with
  | WpList _ => True
  | ChatAnalysis m q _ => m = current_model /\ q = user_query
  | _ => False
  end.

Lemma emits_search_content (P : request -> Prop) (q mr : json) :
  (forall p, P (WpList p)) -> emits P (search_content q mr).
Proof. intros HP. unfold search_content. emits_auto. Qed.

Lemma emits_get_ai_analysis (P : request -> Prop) (q f : string) :
  P (ChatAnalysis current_model q f) -> emits P (_get_ai_analysis q f).
Proof. intros HP. unfold _get_ai_analysis. emits_auto. Qed.

Lemma emits_execute_tool_call (r : json) (q : string) (mr tc : json) :
  emits (retrieval_request q) (execute_tool_call r q mr tc).
Proof.
  unfold execute_tool_call. emits_auto.
  - apply emits_search_content. intros p. exact I.
  - apply emits_get_ai_analysis. now split.
Qed.

Lemma emits_tool_calls_loop (r : json) (q : string) (mr : json)
  (calls : list json) :
  emits (retrieval_request q) (tool_calls_loop r q mr calls).
Proof.
  induction calls as [| c calls IH]; cbn [tool_calls_loop]; emits_auto.
  apply emits_execute_tool_call.
Qed.

Lemma emits_process_ai_response (r : json) (q : string) (mr : json) :
  emits (retrieval_request q) (_process_ai_response r q mr).
Proof.
  unfold _process_ai_response. emits_auto.
  apply emits_tool_calls_loop.
Qed.

(** Every request of [search] is a tool request for a model of the
    cascade, a content GET, or an analysis request to [current_model]. *)
Definition search_request (user_query : string) (r : request) : Prop :=
  match r with
  | ChatTool m q => In m (current_model :: fallback_models) /\ q = user_query
  | WpList _ => True
  | ChatAnalysis m q _ => m = current_model /\ q = user_query
  | _ => False
  end.

Lemma retrieval_is_search_request (q : string) (r : request) :
  retrieval_request q r -> search_request q r.
Proof. destruct r; cbn; tauto. Qed.

Lemma emits_search_with_model (q : string) (mr : json) (m : string) :
  In m (current_model :: fallback_models) ->
  emits (search_request q) (_search_with_model q mr m).
Proof.
  intros Hin. unfold _search_with_model. emits_auto.
  eapply emits_weaken; [apply retrieval_is_search_request |].
  apply emits_process_ai_response.
Qed.

Lemma emits_fallback_search (q : string) (mr : json) :
  emits (search_request q) (_fallback_search q mr).
Proof.
  unfold _fallback_search. emits_auto.
  apply emits_search_content. intros p. exact I.
Qed.

Lemma emits_cascade (q : string) (mr : json) (models : list string) :
  incl models (current_model :: fallback_models) ->
  emits (search_request q) (cascade q mr models).
Proof.
  induction models as [| m models IH]; intros Hin; cbn [cascade].
  - apply emits_fallback_search.
  - apply emits_try_except.
    + apply emits_search_with_model. apply Hin. now left.
    + intros _. apply IH. intros x Hx. apply Hin. now right.
Qed.

Lemma emits_search (q : string) (mr : option Z) :
  emits (search_request q) (search q mr).
Proof. unfold search. apply emits_cascade. apply incl_refl. Qed.

(** * The search engine in closed form *)

(** [result['choices'][0]['message']]. *)
Definition message_of (result : json) : res json :=
  res_bind (py_getitem result "choices") (fun choices =>
  res_bind (py_getitem0 choices) (fun choice =>
  py_getitem choice "message")).

(** The text [_get_ai_analysis] reads off the analysis response. *)
Definition analysis_text (result : json) : res json :=
  res_bind (message_of result) (fun message => py_getitem message "content").

(** What [_get_ai_analysis] makes of the reply to its request. *)
Definition analysis_result (rep : http_reply) : res json :=
  match decoded rep with
  | inl _ => inr (JStr analysis_unavailable)
  | inr result => analysis_text result
  end.

Lemma py_getitem_error (v : json) (k : string) (e : exn) :
  py_getitem v k = inl e -> is_RequestException e = false.
Proof.
  destruct v; cbn; try (intros E; inversion E; reflexivity).
  destruct (assoc k d); intros E; inversion E; reflexivity.
Qed.

Lemma py_getitem0_error (v : json) (e : exn) :
  py_getitem0 v = inl e -> is_RequestException e = false.
Proof.
  destruct v as [| | | | [| c s] | [| x l] |]; cbn; intros E;
    inversion E; reflexivity.
Qed.

Lemma analysis_text_error (result : json) (e : exn) :
  analysis_text result = inl e -> is_RequestException e = false.
Proof.
  unfold analysis_text, message_of.
  destruct (py_getitem result "choices") as [e1 | choices] eqn:E1;
    cbn [res_bind].
  { intros E. inversion E; subst. eapply py_getitem_error; eauto. }
  destruct (py_getitem0 choices) as [e2 | choice] eqn:E2; cbn [res_bind].
  { intros E. inversion E; subst. eapply py_getitem0_error; eauto. }
  destruct (py_getitem choice "message") as [e3 | message] eqn:E3;
    cbn [res_bind].
  { intros E. inversion E; subst. eapply py_getitem_error; eauto. }
  apply py_getitem_error.
Qed.

Lemma run_get_ai_analysis (q f : string) (h : list request) :
  run (_get_ai_analysis q f) h =
  (analysis_result (net h (ChatAnalysis current_model q f)),
   (h ++ [ChatAnalysis current_model q f])%list).
Proof.
  unfold _get_ai_analysis, analysis_result.
  rewrite run_try_except by (intros; blind_auto).
  rewrite run_exchange by (intros; blind_auto).
  destruct (decoded (net h _)) as [e | result] eqn:Edec.
  - now rewrite (decoded_error _ Edec).
  - pose proof (@analysis_text_error result) as Herr.
    unfold analysis_text, message_of in *.
    rewrite run_bind by (intros; blind_auto). rewrite run_lift.
    destruct (py_getitem result "choices") as [e1 | choices];
      cbn [res_bind] in *.
    { now rewrite (Herr _ eq_refl). }
    rewrite run_bind by (intros; blind_auto). rewrite run_lift.
    destruct (py_getitem0 choices) as [e2 | choice]; cbn [res_bind] in *.
    { now rewrite (Herr _ eq_refl). }
    rewrite run_bind by (intros; blind_auto). rewrite run_lift.
    destruct (py_getitem choice "message") as [e3 | message];
      cbn [res_bind] in *.
    { now rewrite (Herr _ eq_refl). }
    rewrite run_lift.
    destruct (py_getitem message "content") as [e4 | content];
      [| reflexivity].
    now rewrite (Herr _ eq_refl).
Qed.

(** The query and the limit a tool call asks for. *)
Definition decoded_arguments (tool_call : json) (user_query : string)
  (max_results : json) : res (json * json) :=
  res_bind (py_getitem tool_call "function") (fun f =>
  res_bind (py_getitem f "arguments") (fun arguments =>
  res_bind (py_json_loads arguments) (fun args =>
  tool_arguments args user_query max_results))).

Lemma run_execute_tool_call (r : json) (q : string) (mr tc : json)
  (h : list request) :
  run (execute_tool_call r q mr tc) h =
  match decoded_arguments tc q mr with
  | inl e => (inl e, h)
  | inr a =>
    match py_min_100 (limit_of (snd a)) with
    | inl e => (inl e, h)
    | inr p =>
      let h1 := (h ++ [WpList p])%list in
      match fetch_result (fst a) (limit_of (snd a)) (net h (WpList p)) with
      | inl e => (inl e, h1)
      | inr rs =>
        match _format_results_for_ai rs with
        | inl e => (inl e, h1)
        | inr f =>
          let h2 := (h1 ++ [ChatAnalysis current_model q f])%list in
          match analysis_result (net h1 (ChatAnalysis current_model q f)) with
          | inl e => (inl e, h2)
          | inr text =>
            match py_getitem r "model" with
            | inl e => (inl e, h2)
            | inr model =>
                (inr (mkSearchResult q rs text model (len rs)), h2)
            end
          end
        end
      end
    end
  end.
Proof.
  unfold execute_tool_call, decoded_arguments.
  rewrite run_bind by (intros; blind_auto). rewrite run_lift.
  destruct (py_getitem tc "function") as [e | f]; cbn [res_bind];
    [reflexivity |].
  rewrite run_bind by (intros; blind_auto). rewrite run_lift.
  destruct (py_getitem f "arguments") as [e | arguments]; cbn [res_bind];
    [reflexivity |].
  rewrite run_bind by (intros; blind_auto). rewrite run_lift.
  destruct (py_json_loads arguments) as [e | args]; cbn [res_bind];
    [reflexivity |].
  rewrite run_bind by (intros; blind_auto). rewrite run_lift.
  destruct (tool_arguments args q mr) as [e | a]; [reflexivity |].
  rewrite run_bind by (intros; blind_auto). rewrite run_search_content.
  destruct (py_min_100 (limit_of (snd a))) as [e | p]; [reflexivity |].
  cbv zeta.
  destruct (fetch_result _ _ _) as [e | rs]; [reflexivity |].
  rewrite run_bind by (intros; blind_auto). rewrite run_lift.
  destruct (_format_results_for_ai rs) as [e | fr]; [reflexivity |].
  rewrite run_bind by (intros; blind_auto). rewrite run_get_ai_analysis.
  destruct (analysis_result _) as [e | text]; [reflexivity |].
  rewrite run_bind by (intros; blind_auto). rewrite run_lift.
  destruct (py_getitem r "model") as [e | model]; reflexivity.
Qed.

(** The first tool call that names the retrieval tool, as the loop
    finds it; a call before it without [function.name] raises. *)
Fixpoint find_invocation (calls : list json) : res (option json) :=
  match calls with
  | [] => inr None
  | tool_call :: rest =>
      res_bind (py_getitem tool_call "function") (fun f =>
      res_bind (py_getitem f "name") (fun name =>
      if py_eq_str name retrieval_tool
      then inr (Some tool_call)
      else find_invocation rest))
  end.

Lemma run_tool_calls_loop (r : json) (q : string) (mr : json)
  (calls : list json) (h : list request) :
  run (tool_calls_loop r q mr calls) h =
  match find_invocation calls with
  | inl e => (inl e, h)
  | inr None => (inr None, h)
  | inr (Some tc) =>
      match run (execute_tool_call r q mr tc) h with
      | (inl e, h') => (inl e, h')
      | (inr x, h') => (inr (Some x), h')
      end
  end.
Proof.
  induction calls as [| c calls IH]; cbn [tool_calls_loop find_invocation].
  - reflexivity.
  - rewrite run_bind by (intros; blind_auto). rewrite run_lift.
    destruct (py_getitem c "function") as [e | f]; cbn [res_bind];
      [reflexivity |].
    rewrite run_bind by (intros; blind_auto). rewrite run_lift.
    destruct (py_getitem f "name") as [e | name]; cbn [res_bind];
      [reflexivity |].
    destruct (py_eq_str name retrieval_tool); [| exact IH].
    rewrite run_bind by (intros; blind_auto).
    destruct (run (execute_tool_call r q mr c) h) as [[e | x] h'];
      reflexivity.
Qed.

(** The tool call [_process_ai_response] executes for a message, if any. *)
Definition invocation_of (message : json) : res (option json) :=
  res_bind (py_contains "tool_calls" message) (fun has_tool_calls =>
  if has_tool_calls : bool
  then res_bind (py_getitem message "tool_calls") (fun tool_calls =>
       res_bind (py_iter tool_calls) find_invocation)
  else inr None).

(** The result built from the model's direct text. *)
Definition direct_answer (r message : json) (q : string) : res SearchResult :=
  res_bind (py_get message "content" (JStr no_relevant_content))
    (fun content =>
  res_bind (py_getitem r "model") (fun model =>
  inr (mkSearchResult q [] content model 0))).

(** The handler of [_process_ai_response]. *)
Definition as_ai_error (e : exn) : exn :=
  if is_response_shape_error e
  then AIError ("Failed to process AI response: " ++ exn_str e)
  else e.

(** The handler of [_search_with_model]. *)
Definition as_gateway_error (e : exn) : exn :=
  if is_RequestException e
  then AIError ("OpenRouter API request failed: " ++ exn_str e)
  else e.

Lemma run_process_ai_response (r : json) (q : string) (mr : json)
  (h : list request) :
  run (_process_ai_response r q mr) h =
  match message_of r with
  | inl e => (inl (as_ai_error e), h)
  | inr message =>
    match invocation_of message with
    | inl e => (inl (as_ai_error e), h)
    | inr (Some tc) =>
        match run (execute_tool_call r q mr tc) h with
        | (inl e, h') => (inl (as_ai_error e), h')
        | (inr x, h') => (inr x, h')
        end
    | inr None =>
        match direct_answer r message q with
        | inl e => (inl (as_ai_error e), h)
        | inr x => (inr x, h)
        end
    end
  end.
Proof.
  assert (Hh : forall e h',
    run (if is_response_shape_error e
         then raise (AIError ("Failed to process AI response: " ++ exn_str e))
         else @raise SearchResult e) h' = (inl (as_ai_error e), h')).
  { intros e h'. unfold as_ai_error.
    destruct (is_response_shape_error e); reflexivity. }
  unfold _process_ai_response, message_of, invocation_of, direct_answer.
  rewrite run_try_except by (intros; blind_auto).
  rewrite run_bind by (intros; blind_auto). rewrite run_lift.
  destruct (py_getitem r "choices") as [e | choices]; cbn [res_bind];
    [apply Hh |].
  rewrite run_bind by (intros; blind_auto). rewrite run_lift.
  destruct (py_getitem0 choices) as [e | choice]; cbn [res_bind];
    [apply Hh |].
  rewrite run_bind by (intros; blind_auto). rewrite run_lift.
  destruct (py_getitem choice "message") as [e | message]; cbn [res_bind];
    [apply Hh |].
  rewrite run_bind by (intros; blind_auto). rewrite run_lift.
  destruct (py_contains "tool_calls" message) as [e | has]; cbn [res_bind];
    [apply Hh |].
  rewrite run_bind by (intros; blind_auto).
  assert (Hdirect :
    run (content <- lift (py_get message "content"
                                 (JStr no_relevant_content)) ;;
         model <- lift (py_getitem r "model") ;;
         ret (mkSearchResult q [] content model 0)) h =
    (res_bind (py_get message "content" (JStr no_relevant_content))
       (fun content =>
        res_bind (py_getitem r "model") (fun model =>
        inr (mkSearchResult q [] content model 0))), h)).
  { rewrite run_bind by (intros; blind_auto). rewrite run_lift.
    destruct (py_get message "content" _) as [e | content]; cbn [res_bind];
      [reflexivity |].
    rewrite run_bind by (intros; blind_auto). rewrite run_lift.
    destruct (py_getitem r "model"); reflexivity. }
  destruct has.
  - rewrite run_bind by (intros; blind_auto). rewrite run_lift.
    destruct (py_getitem message "tool_calls") as [e | tool_calls];
      cbn [res_bind]; [apply Hh |].
    rewrite run_bind by (intros; blind_auto). rewrite run_lift.
    destruct (py_iter tool_calls) as [e | calls]; cbn [res_bind];
      [apply Hh |].
    rewrite run_tool_calls_loop.
    destruct (find_invocation calls) as [e | [tc |]]; [apply Hh | |].
    + destruct (run (execute_tool_call r q mr tc) h) as [[e | x] h'];
        [apply Hh | reflexivity].
    + rewrite Hdirect.
      destruct (res_bind _ _); [apply Hh | reflexivity].
  - rewrite run_ret, Hdirect.
    destruct (res_bind _ _); [apply Hh | reflexivity].
Qed.

Lemma run_search_with_model (q : string) (mr : json) (m : string)
  (h : list request) :
  run (_search_with_model q mr m) h =
  match decoded (net h (ChatTool m q)) with
  | inl e => (inl (as_gateway_error e), (h ++ [ChatTool m q])%list)
  | inr r =>
      match run (_process_ai_response r q mr) (h ++ [ChatTool m q])%list with
      | (inl e, h') => (inl (as_gateway_error e), h')
      | (inr x, h') => (inr x, h')
      end
  end.
Proof.
  assert (Hh : forall e h',
    run (if is_RequestException e
         then raise (AIError ("OpenRouter API request failed: " ++ exn_str e))
         else @raise SearchResult e) h' = (inl (as_gateway_error e), h')).
  { intros e h'. unfold as_gateway_error.
    destruct (is_RequestException e); reflexivity. }
  unfold _search_with_model.
  rewrite run_try_except by (intros; blind_auto).
  rewrite run_exchange by (intros; blind_auto).
  destruct (decoded (net h (ChatTool m q))) as [e | r]; [apply Hh |].
  destruct (run (_process_ai_response r q mr) _) as [[e | x] h'];
    [apply Hh | reflexivity].
Qed.

Definition fallback_analysis (n : Z) : string :=
  "Found " ++ py_str (JInt n) ++
  " results for your query. (Fallback search - AI analysis unavailable)".

Lemma run_fallback_search (q : string) (mr : json) (h : list request) :
  run (_fallback_search q mr) h =
  match run (search_content (JStr q) mr) h with
  | (inr rs, h') =>
      (inr (mkSearchResult q rs (JStr (fallback_analysis (len rs)))
                           (JStr "fallback") (len rs)), h')
  | (inl (WordPressAPIError msg), h') =>
      (inr (mkSearchResult q [] (JStr ("Search failed: " ++ msg))
                           (JStr "error") 0), h')
  | (inl e, h') => (inl e, h')
  end.
Proof.
  unfold _fallback_search.
  rewrite run_try_except by (intros; blind_auto).
  rewrite run_bind by (intros; blind_auto).
  destruct (run (search_content (JStr q) mr) h) as [[e | rs] h'].
  - destruct e; reflexivity.
  - reflexivity.
Qed.

Lemma run_cascade_cons (q : string) (mr : json) (m : string)
  (rest : list string) (h : list request) :
  run (cascade q mr (m :: rest)) h =
  match run (_search_with_model q mr m) h with
  | (inl _, h') => run (cascade q mr rest) h'
  | (inr x, h') => (inr x, h')
  end.
Proof.
  cbn [cascade]. rewrite run_try_except by (intros; blind_auto).
  reflexivity.
Qed.

(** * The cascade *)

(** What a method returns, and the log it leaves, from a state. *)
Definition returned {A : Type} (c : M A) (s : state) : res A := fst (c s).
Definition log_after {A : Type} (c : M A) (s : state) : list request :=
  trace (snd (c s)).

Lemma run_from {A : Type} (c : M A) (s : state) :
  clock_blind c -> run c (trace s) = (returned c s, log_after c s).
Proof. intros B. symmetry. now apply run_sound. Qed.

(** [max_results] after [if max_results is None: ...] in [search]. *)
Definition requested (max_results : option Z) : Z :=
  match max_results with
  | None => config_max_results
  | Some n => n
  end.

Lemma run_search (q : string) (mr : option Z) (s : state) :
  run (cascade q (JInt (requested mr)) (current_model :: fallback_models))
      (trace s) =
  (returned (search q mr) s, log_after (search q mr) s).
Proof. apply (run_from s (blind_search q mr)). Qed.

(** The attempts on [models], in this order, all raise, and take the log
    from [h] to [h1]. *)
Fixpoint attempts_fail (q : string) (mr : json) (models : list string)
  (h h1 : list request) : Prop :=
  match models with
  | [] => h1 = h
  | m :: rest =>
      exists e h',
        run (_search_with_model q mr m) h = (inl e, h') /\
        attempts_fail q mr rest h' h1
  end.

Lemma cascade_skips (q : string) (mr : json) (pre post : list string)
  (h h1 : list request) :
  attempts_fail q mr pre h h1 ->
  run (cascade q mr (pre ++ post)) h = run (cascade q mr post) h1.
Proof.
  revert h. induction pre as [| m pre IH]; intros h; cbn [attempts_fail].
  - now intros ->.
  - intros (e & h' & E & F). cbn [app]. rewrite run_cascade_cons, E.
    now apply IH.
Qed.

(** The models addressed by the tool requests of a log. *)
Definition tool_models (l : list request) : list string :=
  flat_map (fun r => match r with ChatTool m _ => [m] | _ => [] end) l.

Lemma tool_models_app (l1 l2 : list request) :
  tool_models (l1 ++ l2) = (tool_models l1 ++ tool_models l2)%list.
Proof. apply flat_map_app. Qed.

Lemma tool_models_cons (m q : string) (l : list request) :
  tool_models (ChatTool m q :: l) = m :: tool_models l.
Proof. reflexivity. Qed.

Lemma tool_models_retrieval (q : string) (l : list request) :
  Forall (retrieval_request q) l -> tool_models l = [].
Proof.
  induction 1 as [| r l Hr _ IH]; [reflexivity |].
  destruct r; cbn in *; try contradiction; exact IH.
Qed.

Lemma run_log {A : Type} (P : request -> Prop) (c : M A)
  (h : list request) :
  emits P c ->
  exists added, snd (run c h) = (h ++ added)%list /\ Forall P added.
Proof. intros E. exact (E (at_log h)). Qed.

(** An attempt issues its tool request, then only retrieval requests. *)
Lemma attempt_log (q : string) (mr : json) (m : string) (h : list request) :
  exists aux,
    snd (run (_search_with_model q mr m) h)
    = (h ++ ChatTool m q :: aux)%list /\
    Forall (retrieval_request q) aux.
Proof.
  rewrite run_search_with_model.
  destruct (decoded (net h (ChatTool m q))) as [e | r].
  - exists []. cbn. auto.
  - destruct (run_log (h ++ [ChatTool m q])
                (emits_process_ai_response r q mr)) as (aux & T & F).
    exists aux.
    destruct (run (_process_ai_response r q mr) _) as [[e | x] h'];
      cbn [snd] in *; subst h'; rewrite <- app_assoc; auto.
Qed.

Lemma attempts_fail_log (q : string) (mr : json) (models : list string)
  (h h1 : list request) :
  attempts_fail q mr models h h1 ->
  exists added, h1 = (h ++ added)%list /\ tool_models added = models.
Proof.
  revert h. induction models as [| m models IH]; intros h;
    cbn [attempts_fail].
  - intros ->. exists []. now rewrite app_nil_r.
  - intros (e & h' & E & F).
    destruct (attempt_log q mr m h) as (aux & T & Faux).
    rewrite E in T. cbn [snd] in T. subst h'.
    destruct (IH _ F) as (added & -> & Tm).
    exists (ChatTool m q :: aux ++ added)%list. split.
    + now rewrite <- app_assoc.
    + rewrite tool_models_cons, tool_models_app,
        (tool_models_retrieval Faux), Tm.
      reflexivity.
Qed.

Lemma fallback_log (q : string) (mr : json) (h : list request) :
  exists added,
    snd (run (_fallback_search q mr) h) = (h ++ added)%list /\
    tool_models added = [].
Proof.
  assert (E : emits (retrieval_request q) (_fallback_search q mr)).
  { unfold _fallback_search. emits_auto.
    apply emits_search_content. intros p. exact I. }
  destruct (run_log h E) as (added & T & F).
  exists added. split; [exact T |]. eapply tool_models_retrieval; eauto.
Qed.

(** The tool requests of a cascade go to a prefix of its models, in
    order. *)
Lemma cascade_order (q : string) (mr : json) (models : list string)
  (h : list request) :
  exists added k,
    snd (run (cascade q mr models) h) = (h ++ added)%list /\
    tool_models added = firstn k models.
Proof.
  revert h. induction models as [| m models IH]; intros h.
  - destruct (fallback_log q mr h) as (added & T & Tm).
    exists added, 0%nat. auto.
  - rewrite run_cascade_cons.
    destruct (attempt_log q mr m h) as (aux & T & Faux).
    destruct (run (_search_with_model q mr m) h) as [[e | x] h'];
      cbn [snd] in T; subst h'.
    + destruct (IH (h ++ ChatTool m q :: aux)%list) as (added & k & T' & Tm).
      exists (ChatTool m q :: aux ++ added)%list, (S k). split.
      * rewrite T'. now rewrite <- app_assoc.
      * rewrite tool_models_cons, tool_models_app,
          (tool_models_retrieval Faux), Tm.
        reflexivity.
    + exists (ChatTool m q :: aux), 1%nat. split; [reflexivity |].
      rewrite tool_models_cons, (tool_models_retrieval Faux).
      now destruct models.
Qed.

(** Whatever [search_content] raises besides [WordPressAPIError] is an
    untyped error. *)
Lemma search_content_error (q mr : json) (h h' : list request) (e : exn) :
  run (search_content q mr) h = (inl e, h') ->
  (exists m, e = WordPressAPIError m) \/ untyped_error e.
Proof.
  rewrite run_search_content.
  destruct (py_min_100 (limit_of mr)) as [e' | p] eqn:Emin.
  - intros E. inversion E; subst. right. eapply py_min_100_error; eauto.
  - intros E. inversion E. eapply fetch_result_error; eauto.
Qed.

(** [search] lets no [AIError] and no [WordPressAPIError] through: what
    it raises is an untyped error of the fallback fetch. *)
Lemma cascade_error (q : string) (mr : json) (models : list string)
  (h h' : list request) (e : exn) :
  run (cascade q mr models) h = (inl e, h') -> untyped_error e.
Proof.
  revert h. induction models as [| m models IH]; intros h.
  - cbn [cascade]. rewrite run_fallback_search.
    destruct (run (search_content (JStr q) mr) h) as [[e' | rs] h1] eqn:E.
    + destruct (search_content_error E) as [(msg & ->) | U].
      * discriminate.
      * destruct e'; cbn in U; try contradiction;
          intros E'; inversion E'; subst; exact I.
    + discriminate.
  - rewrite run_cascade_cons.
    destruct (run (_search_with_model q mr m) h) as [[e' | x] h1].
    + apply IH.
    + discriminate.
Qed.

Lemma search_with_model_reports (q : string) (mr : json) (m : string)
  (h h2 : list request) (r : SearchResult) :
  run (_search_with_model q mr m) h = (inr r, h2) ->
  exists resp,
    decoded (net h (ChatTool m q)) = inr resp /\
    py_getitem resp "model" = inr (model_used r).
Proof.
  rewrite run_search_with_model.
  destruct (decoded (net h (ChatTool m q))) as [e | resp]; [discriminate |].
  intros E. exists resp. split; [reflexivity |].
  rewrite run_process_ai_response in E.
  destruct (message_of resp) as [e | message]; [discriminate |].
  destruct (invocation_of message) as [e | [tc |]]; [discriminate | |].
  - rewrite run_execute_tool_call in E.
    destruct (decoded_arguments tc q mr) as [e | a]; [discriminate |].
    destruct (py_min_100 _) as [e | p]; [discriminate |].
    cbv zeta in E.
    destruct (fetch_result _ _ _) as [e | rs]; [discriminate |].
    destruct (_format_results_for_ai rs) as [e | f]; [discriminate |].
    destruct (analysis_result _) as [e | text]; [discriminate |].
    destruct (py_getitem resp "model") as [e | model]; [discriminate |].
    inversion E. reflexivity.
  - unfold direct_answer in E.
    destruct (py_get message "content" _) as [e | content];
      cbn [res_bind] in E; [discriminate |].
    destruct (py_getitem resp "model") as [e | model];
      cbn [res_bind] in E; [discriminate |].
    inversion E. reflexivity.
Qed.

(** C3, as the code has it.  The tool requests of a search go to a
    prefix of [[current_model] + fallback_models], in this order; a model
    whose request fails in transport is abandoned and the cascade goes
    on with the next one; [search] raises no [AIError] (what it raises
    is an untyped error); the first attempt that returns gives the
    result of [search], and no later model is contacted; and the
    [model_used] of a result is the [model] entry of the response of the
    model that produced it. *)
Theorem cascade_priority (q : string) (mr : option Z) (s : state) :
  let models := current_model :: fallback_models in
  let limit := JInt (requested mr) in
  (exists added k,
     log_after (search q mr) s = (trace s ++ added)%list /\
     tool_models added = firstn k models) /\
  (forall m rest h e,
     decoded (net h (ChatTool m q)) = inl e ->
     run (cascade q limit (m :: rest)) h
     = run (cascade q limit rest) (h ++ [ChatTool m q])%list) /\
  (forall e, returned (search q mr) s = inl e -> untyped_error e) /\
  (forall pre m post h1 r h2,
     models = (pre ++ m :: post)%list ->
     attempts_fail q limit pre (trace s) h1 ->
     run (_search_with_model q limit m) h1 = (inr r, h2) ->
     returned (search q mr) s = inr r /\
     log_after (search q mr) s = h2 /\
     exists added,
       h2 = (trace s ++ added)%list /\
       tool_models added = (pre ++ [m])%list) /\
  (forall m h r h2,
     run (_search_with_model q limit m) h = (inr r, h2) ->
     exists resp,
       decoded (net h (ChatTool m q)) = inr resp /\
       py_getitem resp "model" = inr (model_used r)).
Proof.
  intros models limit.
  pose proof (run_search q mr s) as R. fold models limit in R.
  repeat split.
  - destruct (cascade_order q limit models (trace s)) as (added & k & T & Tm).
    rewrite R in T. cbn [snd] in T. eauto.
  - intros m rest h e E. rewrite run_cascade_cons, run_search_with_model, E.
    reflexivity.
  - intros e E. rewrite E in R. eapply cascade_error; eauto.
  - rename H into Hm, H0 into F, H1 into E.
    rewrite Hm, (cascade_skips _ _ _ _ _ _ F), run_cascade_cons, E in R.
    now inversion R.
  - rename H into Hm, H0 into F, H1 into E.
    rewrite Hm, (cascade_skips _ _ _ _ _ _ F), run_cascade_cons, E in R.
    now inversion R.
  - rename H into Hm, H0 into F, H1 into E.
    destruct (attempts_fail_log _ _ _ _ _ F) as (a1 & -> & T1).
    destruct (attempt_log q limit m (trace s ++ a1)%list) as (aux & T & Faux).
    rewrite E in T. cbn [snd] in T.
    exists (a1 ++ ChatTool m q :: aux)%list. split.
    + now rewrite app_assoc.
    + rewrite tool_models_app, tool_models_cons,
        (tool_models_retrieval Faux), T1.
      reflexivity.
  - intros m h r h2 E. eapply search_with_model_reports; eauto.
Qed.

(** * Direct answers *)

(** A tool call that names another tool than the retrieval tool. *)
Definition names_other_tool (tool_call : json) : Prop :=
  exists f name,
    py_getitem tool_call "function" = inr f /\
    py_getitem f "name" = inr name /\
    py_eq_str name retrieval_tool = false.

Lemma find_invocation_none (calls : list json) :
  Forall names_other_tool calls -> find_invocation calls = inr None.
Proof.
  induction 1 as [| tc calls (f & name & Ef & En & Eq) _ IH];
    cbn [find_invocation]; [reflexivity |].
  rewrite Ef. cbn [res_bind]. rewrite En. cbn [res_bind]. now rewrite Eq.
Qed.

(** A message holds no invocation of the retrieval tool when it has no
    [tool_calls] entry, and when the calls of the entry all name other
    tools. *)
Lemma invocation_of_none (msg : list (string * json)) :
  (assoc "tool_calls" msg = None \/
   exists calls,
     assoc "tool_calls" msg = Some (JList calls) /\
     Forall names_other_tool calls) ->
  invocation_of (JDict msg) = inr None.
Proof.
  unfold invocation_of. cbn [py_contains py_getitem res_bind].
  intros [E | (calls & E & F)]; rewrite E; [reflexivity |].
  cbn [res_bind py_iter]. now apply find_invocation_none.
Qed.


(** * Total failure of the cascade *)

(** The content endpoint answers every request it answers at all with a
    JSON list of objects. *)
Definition content_endpoint_well_formed : Prop :=
  forall h p v,
    decoded (net h (WpList p)) = inr v -> exists ds, v = JList (map JDict ds).

Lemma res_map_format_dicts (ds : list (list (string * json))) :
  exists l, res_map _format_content_item (map JDict ds) = inr l.
Proof.
  induction ds as [| d ds (l & IH)]; cbn [map res_map].
  - eauto.
  - destruct (format_content_item_dict d) as (c & ->). cbn [res_bind].
    rewrite IH. cbn [res_bind]. eauto.
Qed.

Lemma fallback_returns (q : string) (n : Z) (h : list request) :
  content_endpoint_well_formed ->
  exists r h', run (_fallback_search q (JInt n)) h = (inr r, h').
Proof.
  intros W. rewrite run_fallback_search, run_search_content.
  cbn [limit_of py_min_100]. unfold fetch_result.
  destruct (decoded (net h (WpList _))) as [e | v] eqn:Edec; [eauto |].
  destruct (W _ _ _ Edec) as (ds & ->).
  unfold _filter_content_by_query. cbn [py_iter res_bind].
  destruct (res_map_format_dicts ds) as (l & ->). cbn. eauto.
Qed.

Lemma cascade_returns (q : string) (n : Z) (models : list string)
  (h : list request) :
  content_endpoint_well_formed ->
  exists r h', run (cascade q (JInt n) models) h = (inr r, h').
Proof.
  intros W. revert h. induction models as [| m models IH]; intros h.
  - now apply fallback_returns.
  - rewrite run_cascade_cons.
    destruct (run (_search_with_model q (JInt n) m) h) as [[e | x] h'];
      eauto.
Qed.

(** C2, as the code has it.  [search] raises no [AIError] and no
    [WordPressAPIError]: what it raises is an untyped error.  When every
    model of the cascade fails, [search] returns what [search_content]
    returns for the raw query, unmodified, under the model identifier
    [fallback]; when that fetch raises [WordPressAPIError], [search]
    returns zero results under the identifier [error], the analysis
    being the error text after the words [Search failed: ].  And when
    the content endpoint only ever answers with lists of objects,
    [search] returns. *)
Theorem search_total_failure (q : string) (mr : option Z) (s : state) :
  let limit := JInt (requested mr) in
  (forall e, returned (search q mr) s = inl e -> untyped_error e) /\
  (forall h1,
     attempts_fail q limit (current_model :: fallback_models) (trace s) h1 ->
     (forall rs h2,
        run (search_content (JStr q) limit) h1 = (inr rs, h2) ->
        returned (search q mr) s
        = inr (mkSearchResult q rs (JStr (fallback_analysis (len rs)))
                              (JStr "fallback") (len rs))) /\
     (forall msg h2,
        run (search_content (JStr q) limit) h1
        = (inl (WordPressAPIError msg), h2) ->
        returned (search q mr) s
        = inr (mkSearchResult q [] (JStr ("Search failed: " ++ msg))
                              (JStr "error") 0))) /\
  (content_endpoint_well_formed ->
   exists r, returned (search q mr) s = inr r).
Proof.
  intros limit.
  pose proof (run_search q mr s) as R. fold limit in R.
  split; [| split].
  - intros e E. rewrite E in R. eapply cascade_error; eauto.
  - intros h1 F.
    rewrite <- (app_nil_r (current_model :: fallback_models)) in R.
    rewrite (cascade_skips _ _ _ _ _ _ F) in R. cbn [cascade] in R.
    rewrite run_fallback_search in R.
    split; intros x h2 E; rewrite E in R; now inversion R.
  - intros W.
    destruct (cascade_returns q (requested mr)
                (current_model :: fallback_models) (trace s) W)
      as (r & h' & E).
    fold limit in E. rewrite E in R. inversion R. eauto.
Qed.

(** * Failure of the analysis request *)

(** C5, as the code has it.  When the attempts on the models before [m]
    failed, the response of [m] invokes the retrieval tool, the content
    is fetched and formatted, and the analysis request then fails in
    transport (no response, a 4xx or 5xx status, a body that is not
    JSON), [search] returns the fetched records with the fixed message
    as the analysis, and contacts no further model. *)
Theorem analysis_outage_keeps_records (q : string) (mr : option Z)
  (s : state) (pre post : list string) (m : string) (h1 : list request)
  (resp message tc model p : json) (a : json * json)
  (rs : list ContentRecord) (f : string) (e : exn) :
  let limit := JInt (requested mr) in
  let h2 := (h1 ++ [ChatTool m q])%list in
  let h3 := (h2 ++ [WpList p])%list in
  current_model :: fallback_models = (pre ++ m :: post)%list ->
  attempts_fail q limit pre (trace s) h1 ->
  decoded (net h1 (ChatTool m q)) = inr resp ->
  message_of resp = inr message ->
  invocation_of message = inr (Some tc) ->
  decoded_arguments tc q limit = inr a ->
  py_min_100 (limit_of (snd a)) = inr p ->
  fetch_result (fst a) (limit_of (snd a)) (net h2 (WpList p)) = inr rs ->
  _format_results_for_ai rs = inr f ->
  decoded (net h3 (ChatAnalysis current_model q f)) = inl e ->
  py_getitem resp "model" = inr model ->
  returned (search q mr) s
  = inr (mkSearchResult q rs (JStr analysis_unavailable) model (len rs)) /\
  log_after (search q mr) s
  = (h3 ++ [ChatAnalysis current_model q f])%list.
Proof.
  intros limit h2 h3 Hm F Edec Emsg Einv Eargs Emin Efetch Efmt Ean Emodel.
  pose proof (run_search q mr s) as R. fold limit in R.
  rewrite Hm, (cascade_skips _ _ _ _ _ _ F), run_cascade_cons,
    run_search_with_model, Edec, run_process_ai_response, Emsg, Einv,
    run_execute_tool_call, Eargs, Emin in R.
  cbv zeta in R. fold h2 in R. rewrite Efetch, Efmt in R. fold h3 in R.
  unfold analysis_result in R. rewrite Ean, Emodel in R.
  now inversion R.
Qed.

(** * Tool arguments *)

(** The records of an attempt that returns after [tc] was invoked with
    the decoded arguments [a] are those of the fetch for [fst a] under
    the limit [snd a], issued right after the tool request. *)
Lemma invocation_records (q : string) (lim : json) (m : string)
  (h h' : list request) (resp message tc : json) (a : json * json)
  (r : SearchResult) :
  decoded (net h (ChatTool m q)) = inr resp ->
  message_of resp = inr message ->
  invocation_of message = inr (Some tc) ->
  decoded_arguments tc q lim = inr a ->
  run (_search_with_model q lim m) h = (inr r, h') ->
  exists p,
    py_min_100 (limit_of (snd a)) = inr p /\
    fetch_result (fst a) (limit_of (snd a))
                 (net (h ++ [ChatTool m q])%list (WpList p))
    = inr (results r).
Proof.
  intros Edec Emsg Einv Eargs.
  rewrite run_search_with_model, Edec, run_process_ai_response, Emsg, Einv,
    run_execute_tool_call, Eargs.
  destruct (py_min_100 _) as [e | p] eqn:Emin; [discriminate |].
  cbv zeta.
  destruct (fetch_result _ _ _) as [e | rs] eqn:Efetch; [discriminate |].
  destruct (_format_results_for_ai rs) as [e | f]; [discriminate |].
  destruct (analysis_result _) as [e | text]; [discriminate |].
  destruct (py_getitem resp "model") as [e | model]; [discriminate |].
  intros E. inversion E; subst. cbn [results]. eauto.
Qed.

(** What [_process_ai_response] does with the records the tool call
    fetched: it formats them, has them analysed, and builds the
    result. *)
Definition finish_tool_call (ai_response : json) (user_query : string)
  (wordpress_results : list ContentRecord) : M SearchResult :=
  formatted_results <- lift (_format_results_for_ai wordpress_results) ;;
  analysis <- _get_ai_analysis user_query formatted_results ;;
  model <- lift (py_getitem ai_response "model") ;;
  ret (mkSearchResult user_query wordpress_results analysis model
                      (len wordpress_results)).

(** C4, as the code has it.  An absent [query] falls back to the user's
    query and an absent [maxResults] to the limit of the search; entries
    that are present are passed on as they are, whatever their type; a
    null limit is replaced by the configured default; the query plays no
    part in what is fetched.  But an arguments string that is not JSON
    is not mapped to defaults: the attempt raises [AIError], and the
    cascade goes on with the next model.  When the arguments string
    decodes to an object [d], the attempt is the call of
    [search_content] on the query and the limit of [d], each replaced by
    its default when absent, followed by the analysis of the records:
    the GET that follows the tool request asks for [min(limit, 100)]
    items, and the records of the result are what this fetch yields. *)
Theorem tool_arguments_defaults (q : string) (mr : json) :
  (forall d, assoc "query" d = None ->
     exists lim, tool_arguments (JDict d) q mr = inr (JStr q, lim)) /\
  (forall d, assoc "maxResults" d = None ->
     exists sq, tool_arguments (JDict d) q mr = inr (sq, mr)) /\
  (forall d v w,
     assoc "query" d = Some v -> assoc "maxResults" d = Some w ->
     tool_arguments (JDict d) q mr = inr (v, w)) /\
  limit_of JNull = JInt config_max_results /\
  (forall q1 q2 lim rep, fetch_result q1 lim rep = fetch_result q2 lim rep) /\
  (forall m rest h resp message tc f text,
     decoded (net h (ChatTool m q)) = inr resp ->
     message_of resp = inr message ->
     invocation_of message = inr (Some tc) ->
     py_getitem tc "function" = inr f ->
     py_getitem f "arguments" = inr (JStr text) ->
     json_loads text = None ->
     (exists msg,
        run (_search_with_model q mr m) h
        = (inl (AIError msg), (h ++ [ChatTool m q])%list)) /\
     run (cascade q mr (m :: rest)) h
     = run (cascade q mr rest) (h ++ [ChatTool m q])%list) /\
  (forall m h resp message tc f text d,
     decoded (net h (ChatTool m q)) = inr resp ->
     message_of resp = inr message ->
     invocation_of message = inr (Some tc) ->
     py_getitem tc "function" = inr f ->
     py_getitem f "arguments" = inr (JStr text) ->
     json_loads text = Some (JDict d) ->
     let search_query := field d "query" (JStr q) in
     let search_max_results := field d "maxResults" mr in
     let h1 := (h ++ [ChatTool m q])%list in
     run (_search_with_model q mr m) h
     = match
         run (wordpress_results <-
                search_content search_query search_max_results ;;
              finish_tool_call resp q wordpress_results) h1
       with
       | (inl e, h') => (inl (as_gateway_error (as_ai_error e)), h')
       | (inr r, h') => (inr r, h')
       end /\
     forall per_page,
       py_min_100 (limit_of search_max_results) = inr per_page ->
       (exists l,
          snd (run (_search_with_model q mr m) h)
          = (h1 ++ WpList per_page :: l)%list) /\
       (forall r h',
          run (_search_with_model q mr m) h = (inr r, h') ->
          fetch_result search_query (limit_of search_max_results)
                       (net h1 (WpList per_page))
          = inr (results r))).
Proof.
  split; [| split; [| split; [| split; [| split; [| split]]]]].
  - intros d E. unfold tool_arguments. cbn [py_get]. rewrite E.
    cbn [res_bind]. eauto.
  - intros d E. unfold tool_arguments. cbn [py_get]. rewrite E.
    cbn [res_bind]. eauto.
  - intros d v w E1 E2. unfold tool_arguments. cbn [py_get].
    now rewrite E1, E2.
  - reflexivity.
  - reflexivity.
  - intros m rest h resp message tc f text Edec Emsg Einv Ef Ea El.
    assert (E : exists msg,
      run (_search_with_model q mr m) h
      = (inl (AIError msg), (h ++ [ChatTool m q])%list)).
    { rewrite run_search_with_model, Edec, run_process_ai_response, Emsg,
        Einv, run_execute_tool_call.
      unfold decoded_arguments. rewrite Ef. cbn [res_bind]. rewrite Ea.
      cbn [res_bind py_json_loads]. rewrite El. cbn. eauto. }
    split; [exact E |].
    destruct E as (msg & E). now rewrite run_cascade_cons, E.
  - intros m h resp message tc f text d Edec Emsg Einv Ef Ea El
      search_query search_max_results h1.
    assert (Eargs :
      decoded_arguments tc q mr = inr (search_query, search_max_results)).
    { unfold decoded_arguments. rewrite Ef. cbn [res_bind]. rewrite Ea.
      cbn [res_bind py_json_loads]. rewrite El. reflexivity. }
    split.
    + rewrite run_search_with_model, Edec, run_process_ai_response, Emsg,
        Einv.
      fold h1.
      assert (X :
        run (execute_tool_call resp q mr tc) h1
        = run (wordpress_results <-
                 search_content search_query search_max_results ;;
               finish_tool_call resp q wordpress_results) h1).
      { unfold execute_tool_call.
        rewrite run_bind by (intros; blind_auto).
        rewrite run_lift, Ef.
        rewrite run_bind by (intros; blind_auto).
        rewrite run_lift, Ea.
        rewrite run_bind by (intros; blind_auto).
        rewrite run_lift. cbn [py_json_loads]. rewrite El.
        rewrite run_bind by (intros; blind_auto).
        rewrite run_lift. reflexivity. }
      rewrite X. clear X.
      destruct (run (wordpress_results <-
                       search_content search_query search_max_results ;;
                     finish_tool_call resp q wordpress_results) h1)
        as [[e | r] h']; reflexivity.
    + intros per_page Emin. split.
      * rewrite run_search_with_model, Edec, run_process_ai_response, Emsg,
          Einv, run_execute_tool_call, Eargs.
        cbn [fst snd]. rewrite Emin. cbv zeta. fold h1.
        destruct (fetch_result _ _ _) as [e | rs];
          [exists []; reflexivity |].
        destruct (_format_results_for_ai rs) as [e | fr];
          [exists []; reflexivity |].
        exists [ChatAnalysis current_model q fr].
        destruct (analysis_result _) as [e | answer];
          [cbn [snd]; now rewrite <- app_assoc |].
        destruct (py_getitem resp "model") as [e | model];
          cbn [snd]; now rewrite <- app_assoc.
      * intros r h' R.
        destruct (invocation_records Edec Emsg Einv Eargs R)
          as (p & Emin' & Efetch).
        cbn [fst snd] in Emin', Efetch. rewrite Emin in Emin'.
        inversion Emin'; subst. exact Efetch.
Qed.

(** * The analysis request *)

(** C10.  Every analysis request of a search is addressed to
    [current_model]; and when the response of a model [m], whichever it
    is, invokes the retrieval tool and the content is fetched and
    formatted, the attempt issues exactly the tool request to [m], the
    content GET, and the analysis request to [current_model]. *)
Theorem analysis_goes_to_current_model (q : string) (mr : option Z)
  (s : state) :
  (exists added,
     log_after (search q mr) s = (trace s ++ added)%list /\
     Forall (fun r => forall m q' f,
                        r = ChatAnalysis m q' f -> m = current_model)
            added) /\
  (forall m limit h resp message tc a p rs f,
     decoded (net h (ChatTool m q)) = inr resp ->
     message_of resp = inr message ->
     invocation_of message = inr (Some tc) ->
     decoded_arguments tc q limit = inr a ->
     py_min_100 (limit_of (snd a)) = inr p ->
     fetch_result (fst a) (limit_of (snd a))
                  (net (h ++ [ChatTool m q])%list (WpList p)) = inr rs ->
     _format_results_for_ai rs = inr f ->
     snd (run (_search_with_model q limit m) h)
     = (h ++ [ChatTool m q; WpList p; ChatAnalysis current_model q f])%list).
Proof.
  split.
  - destruct (emits_search q mr s) as (added & T & F).
    exists added. split; [exact T |].
    eapply Forall_impl; [| exact F].
    intros r Hr m q' f ->. cbn in Hr. tauto.
  - intros m limit h resp message tc a p rs f
      Edec Emsg Einv Eargs Emin Efetch Efmt.
    rewrite run_search_with_model, Edec, run_process_ai_response, Emsg,
      Einv, run_execute_tool_call, Eargs, Emin.
    cbv zeta. rewrite Efetch, Efmt.
    repeat rewrite <- app_assoc. cbn [app].
    destruct (analysis_result _) as [e | text]; [reflexivity |].
    destruct (py_getitem resp "model"); reflexivity.
Qed.

(** * The number of results *)

Lemma res_map_length {A B : Type} (f : A -> res B) (l : list A)
  (l' : list B) :
  res_map f l = inr l' -> length l' = length l.
Proof.
  revert l'. induction l as [| x l IH]; intros l'; cbn [res_map].
  - intros E. now inversion E.
  - destruct (f x) as [e | y]; cbn [res_bind]; [discriminate |].
    destruct (res_map f l) as [e | ys]; cbn [res_bind]; [discriminate |].
    intros E. inversion E. cbn. now rewrite (IH ys eq_refl).
Qed.

Lemma slice_to_length {A : Type} (l : list A) (n : Z) :
  (length (slice_to l n) <= length l)%nat.
Proof. unfold slice_to. destruct (n <? 0); rewrite length_firstn; lia. Qed.

Lemma slice_to_bound {A : Type} (l : list A) (n : Z) :
  0 <= n -> len (slice_to l n) <= n.
Proof.
  intros Hn. unfold slice_to, len.
  destruct (n <? 0) eqn:E; [apply Z.ltb_lt in E; lia |].
  rewrite length_firstn. lia.
Qed.

Lemma py_slice_list_length {A : Type} (l l' : list A) (v : json) :
  py_slice_list l v = inr l' -> (length l' <= length l)%nat.
Proof.
  destruct v; cbn; intros E; inversion E; subst;
    auto using slice_to_length.
Qed.

(** A fetch with an integer limit [k >= 0] returns at most [k] records. *)
Lemma fetch_result_bound (q0 : json) (k : Z) (rep : http_reply)
  (rs : list ContentRecord) :
  0 <= k -> fetch_result q0 (JInt k) rep = inr rs -> len rs <= k.
Proof.
  intros Hk. unfold fetch_result.
  destruct (decoded rep) as [e | v]; [discriminate |].
  destruct (_filter_content_by_query v q0) as [e | l]; cbn; [discriminate |].
  intros E. inversion E. now apply slice_to_bound.
Qed.

(** The number of items a [per_page] parameter asks for. *)
Definition per_page_value (p : json) : Z :=
  match p with
  | JInt k => k
  | JBool true => 1
  | _ => 0
  end.

(** The content endpoint returns at most [per_page] items. *)
Definition upstream_honours_per_page : Prop :=
  forall h p v items,
    decoded (net h (WpList p)) = inr v ->
    py_iter v = inr items ->
    len items <= Z.max 0 (per_page_value p).

Lemma py_min_100_value (x p : json) :
  py_min_100 x = inr p -> per_page_value p <= 100.
Proof.
  destruct x; cbn; intros E; inversion E; subst; cbn.
  - destruct b; lia.
  - destruct (100 <? n) eqn:L; [lia | apply Z.ltb_ge in L; lia].
  - destruct (Qlt_le_dec _ _); cbn; lia.
Qed.

Lemma fetch_result_cap (q0 lim p : json) (h : list request)
  (rs : list ContentRecord) :
  upstream_honours_per_page ->
  py_min_100 lim = inr p ->
  fetch_result q0 lim (net h (WpList p)) = inr rs ->
  len rs <= 100.
Proof.
  intros U Emin. unfold fetch_result.
  destruct (decoded (net h (WpList p))) as [e | v] eqn:Edec; [discriminate |].
  unfold _filter_content_by_query.
  destruct (py_iter v) as [e | items] eqn:Eit; cbn [res_bind];
    [discriminate |].
  destruct (res_map _format_content_item items) as [e | l] eqn:Emap;
    cbn [res_bind]; [discriminate |].
  intros Es.
  pose proof (U _ _ _ _ Edec Eit) as B.
  pose proof (py_min_100_value _ Emin) as V.
  pose proof (res_map_length _ _ Emap) as L1.
  pose proof (py_slice_list_length _ _ Es) as L2.
  unfold len in *. lia.
Qed.

(** The records of a result were fetched under the limit [lim0]. *)
Definition fetched_with (r : SearchResult) (lim0 : json) : Prop :=
  exists q0 h0 p,
    py_min_100 (limit_of lim0) = inr p /\
    fetch_result q0 (limit_of lim0) (net h0 (WpList p)) = inr (results r).

(** Some tool invocation by a model of the cascade, answering the query
    [q], asks for the limit [lim0], when the search itself runs under
    [lim]. *)
Definition tool_limit (q : string) (lim lim0 : json) : Prop :=
  exists h m resp message tc a,
    In m (current_model :: fallback_models) /\
    decoded (net h (ChatTool m q)) = inr resp /\
    message_of resp = inr message /\
    invocation_of message = inr (Some tc) /\
    decoded_arguments tc q lim = inr a /\
    snd a = lim0.

Lemma attempt_origin (q : string) (lim : json) (m : string)
  (h h' : list request) (r : SearchResult) :
  In m (current_model :: fallback_models) ->
  run (_search_with_model q lim m) h = (inr r, h') ->
  total_results r = len (results r) /\
  (results r = [] \/
   exists lim0, tool_limit q lim lim0 /\ fetched_with r lim0).
Proof.
  intros Hin. rewrite run_search_with_model.
  destruct (decoded (net h (ChatTool m q))) as [e | resp] eqn:Edec;
    [discriminate |].
  rewrite run_process_ai_response.
  destruct (message_of resp) as [e | message] eqn:Emsg; [discriminate |].
  destruct (invocation_of message) as [e | [tc |]] eqn:Einv;
    [discriminate | |].
  - rewrite run_execute_tool_call.
    destruct (decoded_arguments tc q lim) as [e | a] eqn:Eargs;
      [discriminate |].
    destruct (py_min_100 _) as [e | p] eqn:Emin; [discriminate |].
    cbv zeta.
    destruct (fetch_result _ _ _) as [e | rs] eqn:Efetch; [discriminate |].
    destruct (_format_results_for_ai rs) as [e | f]; [discriminate |].
    destruct (analysis_result _) as [e | text]; [discriminate |].
    destruct (py_getitem resp "model") as [e | model]; [discriminate |].
    intros E. inversion E; subst. cbn [total_results results].
    split; [reflexivity |]. right. exists (snd a). split.
    + exists h, m, resp, message, tc, a. repeat split; assumption.
    + exists (fst a), (h ++ [ChatTool m q])%list, p. auto.
  - unfold direct_answer.
    destruct (py_get message "content" _) as [e | content];
      cbn [res_bind]; [discriminate |].
    destruct (py_getitem resp "model") as [e | model];
      cbn [res_bind]; [discriminate |].
    intros E. inversion E. cbn. auto.
Qed.

Lemma cascade_origin (q : string) (lim : json) (models : list string)
  (h h' : list request) (r : SearchResult) :
  incl models (current_model :: fallback_models) ->
  run (cascade q lim models) h = (inr r, h') ->
  total_results r = len (results r) /\
  (results r = [] \/
   exists lim0, (lim0 = lim \/ tool_limit q lim lim0) /\ fetched_with r lim0).
Proof.
  intros Hin. revert h. induction models as [| m models IH]; intros h.
  - cbn [cascade]. rewrite run_fallback_search, run_search_content.
    destruct (py_min_100 (limit_of lim)) as [e | p] eqn:Emin.
    + pose proof (py_min_100_error _ Emin) as U.
      destruct e; cbn in U; try contradiction; discriminate.
    + destruct (fetch_result _ _ _) as [e | rs] eqn:Efetch.
      * destruct e; try discriminate.
        intros E. inversion E. cbn. auto.
      * intros E. inversion E. cbn [total_results results].
        split; [reflexivity |]. right. exists lim. split; [now left |].
        exists (JStr q), h, p. auto.
  - rewrite run_cascade_cons.
    destruct (run (_search_with_model q lim m) h) as [[e | x] h1] eqn:E.
    + apply IH. intros x Hx. apply Hin. now right.
    + intros E'. inversion E'; subst.
      assert (Hm : In m (current_model :: fallback_models))
        by (apply Hin; now left).
      destruct (attempt_origin Hm E) as [T [Z | (lim0 & TL & FW)]];
        split; auto.
      right. exists lim0. auto.
Qed.

(** A search that returns was decided by the first attempt that
    returns, or, when every attempt raised, by the fallback. *)
Lemma cascade_decided (q : string) (lim : json) (models : list string)
  (h h' : list request) (r : SearchResult) :
  run (cascade q lim models) h = (inr r, h') ->
  (exists pre m post h1,
     models = (pre ++ m :: post)%list /\
     attempts_fail q lim pre h h1 /\
     run (_search_with_model q lim m) h1 = (inr r, h')) \/
  (exists h1,
     attempts_fail q lim models h h1 /\
     run (_fallback_search q lim) h1 = (inr r, h')).
Proof.
  revert h. induction models as [| m models IH]; intros h.
  - cbn [cascade]. intros E. right. exists h. split; [reflexivity | exact E].
  - rewrite run_cascade_cons.
    destruct (run (_search_with_model q lim m) h) as [[e | x] h1] eqn:E.
    + intros E'.
      destruct (IH _ E') as [(pre & m' & post & h2 & -> & F & R)
                            | (h2 & F & R)].
      * left. exists (m :: pre), m', post, h2.
        split; [reflexivity |]. split; [| exact R].
        cbn [attempts_fail]. eauto.
      * right. exists h2. split; [| exact R].
        cbn [attempts_fail]. eauto.
    + intros E'. inversion E'; subst. left. exists [], m, models, h.
      split; [reflexivity |]. split; [reflexivity | exact E].
Qed.

(** An attempt that returns executed a tool invocation, or returns no
    record. *)
Lemma attempt_decided (q : string) (lim : json) (m : string)
  (h h' : list request) (r : SearchResult) :
  run (_search_with_model q lim m) h = (inr r, h') ->
  (exists resp message tc a,
     decoded (net h (ChatTool m q)) = inr resp /\
     message_of resp = inr message /\
     invocation_of message = inr (Some tc) /\
     decoded_arguments tc q lim = inr a) \/
  results r = [].
Proof.
  intros R. pose proof R as R'. revert R'.
  rewrite run_search_with_model.
  destruct (decoded (net h (ChatTool m q))) as [e | resp] eqn:Edec;
    [discriminate |].
  rewrite run_process_ai_response.
  destruct (message_of resp) as [e | message] eqn:Emsg; [discriminate |].
  destruct (invocation_of message) as [e | [tc |]] eqn:Einv;
    [discriminate | |].
  - rewrite run_execute_tool_call.
    destruct (decoded_arguments tc q lim) as [e | a] eqn:Eargs;
      [discriminate |].
    intros _. left. exists resp, message, tc, a. auto.
  - unfold direct_answer.
    destruct (py_get message "content" _) as [e | content];
      cbn [res_bind]; [discriminate |].
    destruct (py_getitem resp "model") as [e | model];
      cbn [res_bind]; [discriminate |].
    intros E. inversion E. now right.
Qed.

(** The result [r] of the search for [q] under the limit [lim], from the
    state [s], was produced by a tool invocation with the decoded
    arguments [a]: the attempts on the models of the cascade before some
    model [m] raised, the response of [m] invokes the retrieval tool
    with these arguments, and the attempt on [m] returns [r]. *)
Definition produced_by_invocation (q : string) (lim : json) (s : state)
  (r : SearchResult) (a : json * json) : Prop :=
  exists pre m post h1 h2 resp message tc,
    current_model :: fallback_models = (pre ++ m :: post)%list /\
    attempts_fail q lim pre (trace s) h1 /\
    decoded (net h1 (ChatTool m q)) = inr resp /\
    message_of resp = inr message /\
    invocation_of message = inr (Some tc) /\
    decoded_arguments tc q lim = inr a /\
    run (_search_with_model q lim m) h1 = (inr r, h2).

(** C1, as the code has it.  For a requested [maxResults] of [n > 0],
    [search] returns a result whenever the content endpoint only answers
    with lists of objects, and the count of a result is the number of
    its records.  The bound on that number is the limit passed on by the
    tool invocation that produced the result: whenever the invocation
    passes on an integer [k >= 0] (its own [maxResults], the configured
    default for a null one, the requested [n] when it has none), the
    result holds at most [k] records.  A result is produced by a tool
    invocation, or it holds at most [n] records.  A result holds at
    most 100 records provided the content endpoint returns at most
    [per_page] items.  And the invocation that produced a result is the
    one of the first attempt that returns: [search] returns its
    result. *)
Theorem results_bounded (q : string) (n : Z) (s : state) :
  0 < n ->
  (content_endpoint_well_formed ->
   exists r, returned (search q (Some n)) s = inr r) /\
  (forall r,
     returned (search q (Some n)) s = inr r ->
     total_results r = len (results r) /\
     (upstream_honours_per_page -> len (results r) <= 100) /\
     (forall a,
        produced_by_invocation q (JInt n) s r a ->
        forall k,
          limit_of (snd a) = JInt k -> 0 <= k -> len (results r) <= k) /\
     ((exists a, produced_by_invocation q (JInt n) s r a) \/
      len (results r) <= n)) /\
  (forall r a,
     produced_by_invocation q (JInt n) s r a ->
     returned (search q (Some n)) s = inr r).
Proof.
  intros Hn.
  pose proof (run_search q (Some n) s) as R. cbn [requested] in R.
  split; [| split].
  - intros W.
    destruct (cascade_returns q n (current_model :: fallback_models)
                (trace s) W) as (r & h' & E).
    rewrite E in R. inversion R. eauto.
  - intros r E. rewrite E in R.
    destruct (@cascade_origin _ _ _ _ _ _ (incl_refl _) R) as [T O].
    split; [exact T |]. split; [| split].
    + intros U. destruct O as [-> | (lim0 & _ & q0 & h0 & p & Emin & Ef)].
      * cbn. lia.
      * eapply fetch_result_cap; eauto.
    + intros a (pre & m & post & h1 & h2 & resp & message & tc
                & Hm & F & Edec & Emsg & Einv & Eargs & Ea) k Ek Hk.
      destruct (invocation_records Edec Emsg Einv Eargs Ea)
        as (p & _ & Ef).
      rewrite Ek in Ef. now apply fetch_result_bound in Ef.
    + destruct (@cascade_decided _ _ _ _ _ _ R)
        as [(pre & m & post & h1 & Hm & F & Ea) | (h1 & F & Ef)].
      * destruct (@attempt_decided _ _ _ _ _ _ Ea)
          as [(resp & message & tc & a & Edec & Emsg & Einv & Eargs) | ->].
        -- left. exists a.
           exists pre, m, post, h1, (log_after (search q (Some n)) s),
             resp, message, tc.
           repeat split; assumption.
        -- right. cbn. lia.
      * right. revert Ef. rewrite run_fallback_search, run_search_content.
        cbn [limit_of py_min_100]. cbv zeta.
        destruct (fetch_result _ _ _) as [e | rs] eqn:Efetch.
        -- destruct e; try discriminate.
           intros E'. inversion E'. cbn. lia.
        -- intros E'. inversion E'. cbn [results].
           now apply fetch_result_bound in Efetch; [| lia].
  - intros r a (pre & m & post & h1 & h2 & resp & message & tc
                & Hm & F & Edec & Emsg & Einv & Eargs & Ea).
    rewrite Hm, (cascade_skips _ _ _ _ _ _ F), run_cascade_cons, Ea in R.
    now inversion R.
Qed.

(** * Calls on the content client *)

(** The calls a caller can make on the content client. *)
Inductive client_call : Type :=
| CallSearch (query max_results : json)
| CallById (content_id : Z)
| CallTest.

(** The state after a call, whatever it returns or raises. *)
Definition perform (c : client_call) (s : state) : state :=
  match c with
  | CallSearch q mr => snd (search_content q mr s)
  | CallById i => snd (get_content_by_id i s)
  | CallTest => snd (test_connection s)
  end.

(** * Further properties of the content client *)

Lemma run_http (r : request) (h : list request) :
  run (http r) h =
  (match net h r with
   | NoReply err => inl (ConnectionError err)
   | Reply st reason b => inr (mkResponse st reason b)
   end, (h ++ [r])%list).
Proof. unfold run, http. cbn. destruct (net h r); reflexivity. Qed.

Lemma run_test_connection (h : list request) :
  run test_connection h =
  (inr (match net h WpPing with
        | NoReply _ => false
        | Reply st _ _ => negb ((400 <=? st) && (st <? 600))
        end), (h ++ [WpPing])%list).
Proof.
  unfold test_connection.
  rewrite run_try_except by (intros; blind_auto).
  rewrite run_bind by (intros; blind_auto).
  rewrite run_rate_limit.
  rewrite run_bind by (intros; blind_auto).
  rewrite run_http.
  destruct (net h WpPing) as [err | st reason b]; [reflexivity |].
  rewrite run_bind by (intros; blind_auto).
  unfold raise_for_status. cbn [status_code status_reason].
  destruct ((400 <=? st) && (st <? 600)); reflexivity.
Qed.

Lemma test_connection_log (s : state) :
  trace (snd (test_connection s)) = (trace s ++ [WpPing])%list.
Proof.
  pose proof (run_from s blind_test_connection) as R.
  rewrite run_test_connection in R. now inversion R.
Qed.

(** A status that [raise_for_status] lets through. *)
Definition status_ok (st : Z) : bool := negb ((400 <=? st) && (st <? 600)).

(** X1.  [test_connection] never raises: it returns [True] exactly when
    a response arrives whose status is not 4xx or 5xx, whatever the body
    of the response, and issues the one request [WpPing]. *)
Theorem test_connection_outcome (s : state) :
  returned test_connection s =
  inr (match net (trace s) WpPing with
       | NoReply _ => false
       | Reply st _ _ => status_ok st
       end) /\
  log_after test_connection s = (trace s ++ [WpPing])%list.
Proof.
  pose proof (run_from s blind_test_connection) as R.
  rewrite run_test_connection in R. unfold status_ok.
  now inversion R.
Qed.

Lemma run_get_content_by_id_log (i : Z) (h : list request) :
  snd (run (get_content_by_id i) h) = (h ++ [WpItem i])%list.
Proof.
  unfold get_content_by_id.
  rewrite run_bind by (intros; blind_auto). rewrite run_rate_limit.
  rewrite run_try_except by (intros; blind_auto).
  rewrite run_exchange by (intros; blind_auto).
  destruct (decoded (net h (WpItem i))) as [e | v] eqn:E.
  - now rewrite (decoded_error _ E).
  - rewrite run_bind by (intros; blind_auto). rewrite run_lift.
    destruct (_format_content_item v) as [e | c] eqn:F.
    + apply format_content_item_error in F. subst e. reflexivity.
    + reflexivity.
Qed.

(** X2.  Every call on the content client issues at most one HTTP
    request: [get_content_by_id] and [test_connection] exactly one;
    [search_content] one, with [per_page = min(max_results, 100)], or
    none at all when [min] rejects the limit. *)
Theorem client_call_requests (c : client_call) (s : state) :
  exists l,
    trace (perform c s) = (trace s ++ l)%list /\
    (length l <= 1)%nat /\
    match c with
    | CallById i => l = [WpItem i]
    | CallTest => l = [WpPing]
    | CallSearch q mr =>
        match py_min_100 (limit_of mr) with
        | inl _ => l = []
        | inr p => l = [WpList p]
        end
    end.
Proof.
  destruct c as [q mr | i |]; cbn [perform].
  - pose proof (run_from s (blind_search_content q mr)) as R.
    rewrite run_search_content in R.
    destruct (py_min_100 (limit_of mr)) as [e | p].
    + exists []. inversion R as [[R1 R2]]. unfold log_after in R2.
      rewrite <- R2, app_nil_r. auto.
    + exists [WpList p]. inversion R as [[R1 R2]]. unfold log_after in R2.
      rewrite <- R2. auto.
  - pose proof (run_from s (blind_get_content_by_id i)) as R.
    apply (f_equal snd) in R. rewrite run_get_content_by_id_log in R.
    cbn [snd] in R. unfold log_after in R.
    exists [WpItem i]. rewrite <- R. auto.
  - pose proof (test_connection_log s) as L.
    exists [WpPing]. rewrite L. auto.
Qed.

Lemma res_map_format_dicts_length (ds : list (list (string * json))) :
  exists l,
    res_map _format_content_item (map JDict ds) = inr l /\
    length l = length ds.
Proof.
  destruct (res_map_format_dicts ds) as (l & E).
  exists l. split; [exact E |].
  rewrite (res_map_length _ _ E). apply length_map.
Qed.

Lemma slice_to_len {A : Type} (l : list A) (n : Z) :
  len (slice_to l n)
  = if n <? 0 then Z.max 0 (len l + n) else Z.min n (len l).
Proof.
  unfold slice_to, len.
  destruct (n <? 0) eqn:E; rewrite length_firstn.
  - apply Z.ltb_lt in E. lia.
  - apply Z.ltb_ge in E. lia.
Qed.

(** X3.  When the content endpoint answers the GET of
    [search_content(query, n)] with a list of objects, the GET asks for
    [per_page = min(n, 100)] and the call returns the normalized list
    cut as the Python slice [[:n]] cuts it: its first [n] records, in
    the order received, for [n >= 0], and all but its last [-n] records
    for [n < 0]. *)
Theorem search_content_slices (q : json) (n st : Z) (reason : string)
  (ds : list (list (string * json))) (s : state) :
  net (trace s) (WpList (JInt (Z.min n 100)))
  = Reply st reason (JSON (JList (map JDict ds))) ->
  status_ok st = true ->
  exists l,
    res_map _format_content_item (map JDict ds) = inr l /\
    length l = length ds /\
    returned (search_content q (JInt n)) s = inr (slice_to l n) /\
    log_after (search_content q (JInt n)) s
    = (trace s ++ [WpList (JInt (Z.min n 100))])%list /\
    (0 <= n -> slice_to l n = firstn (Z.to_nat n) l) /\
    len (slice_to l n)
    = if n <? 0 then Z.max 0 (len ds + n) else Z.min n (len ds).
Proof.
  intros Enet Est.
  destruct (res_map_format_dicts_length ds) as (l & El & Ll).
  exists l. split; [exact El |]. split; [exact Ll |].
  pose proof (run_from s (blind_search_content q (JInt n))) as R.
  rewrite run_search_content in R. cbn [limit_of py_min_100] in R.
  assert (Em : (if 100 <? n then 100 else n) = Z.min n 100).
  { destruct (100 <? n) eqn:E;
      [apply Z.ltb_lt in E | apply Z.ltb_ge in E]; lia. }
  rewrite Em in R. unfold fetch_result, decoded in R. rewrite Enet in R.
  unfold status_ok in Est. apply negb_true_iff in Est. rewrite Est in R.
  unfold _filter_content_by_query in R. cbn [py_iter res_bind] in R.
  rewrite El in R. cbn [res_bind py_slice_list] in R.
  inversion R as [[R1 R2]].
  split; [reflexivity |]. split; [reflexivity |]. split.
  - intros Hn. unfold slice_to.
    destruct (n <? 0) eqn:E; [apply Z.ltb_lt in E; lia | reflexivity].
  - rewrite slice_to_len. unfold len. now rewrite Ll.
Qed.

(** X4.  A limit that is a string, a list or an object makes
    [search_content] raise [TypeError] before any request is issued; a
    limit that is a non-integer number lets the GET go out and then
    never yields records. *)
Theorem search_content_rejects_limit (q lim : json) (s : state) :
  (match lim with
   | JStr _ | JList _ | JDict _ => True
   | _ => False
   end ->
   (exists msg,
      returned (search_content q lim) s = inl (TypeError msg)) /\
   log_after (search_content q lim) s = trace s) /\
  (forall x,
     lim = JReal x ->
     (forall rs, returned (search_content q lim) s <> inr rs) /\
     exists p,
       log_after (search_content q lim) s = (trace s ++ [WpList p])%list).
Proof.
  pose proof (run_from s (blind_search_content q lim)) as R.
  rewrite run_search_content in R.
  split.
  - intros H. destruct lim; try contradiction; cbn in R;
      inversion R; eauto.
  - intros x ->. cbn [limit_of py_min_100] in R.
    inversion R as [[R1 R2]]. split; [| eauto].
    intros rs. unfold fetch_result.
    destruct (decoded _) as [e | v]; [discriminate |].
    destruct (_filter_content_by_query v q) as [e | l]; cbn;
      discriminate.
Qed.

(** * Normalizing twice *)

(** The dict that [_format_content_item] returns, as a raw record. *)
Definition record_entries (c : ContentRecord) : list (string * json) :=
  [("id", cr_id c); ("title", cr_title c); ("excerpt", cr_excerpt c);
   ("content", cr_content c); ("url", cr_url c); ("date", cr_date c);
   ("author", cr_author c); ("type", cr_type c); ("slug", cr_slug c)].

(** The author [_format_content_item] reads off an [author] entry. *)
Definition author_of (author_info : json) : json :=
  match author_info with
  | JDict a => field a "name" (JStr "Unknown")
  | _ => JStr "Unknown"
  end.

(** X5.  Formatting a record that is already formatted keeps every
    field but the author: the author is read as a nested object again,
    so an author that is a plain name becomes [Unknown].  Normalization
    is therefore stable on a record only when its author is [Unknown]
    (or an object naming itself). *)
Theorem renormalizing_resets_author (c : ContentRecord) :
  _format_content_item (JDict (record_entries c))
  = inr (mkContentRecord (cr_id c) (cr_title c) (cr_excerpt c)
           (cr_content c) (cr_url c) (cr_date c) (author_of (cr_author c))
           (cr_type c) (cr_slug c)) /\
  (forall name, cr_author c = JStr name ->
     exists c', _format_content_item (JDict (record_entries c)) = inr c' /\
                cr_author c' = JStr "Unknown") /\
  (_format_content_item (JDict (record_entries c)) = inr c <->
   author_of (cr_author c) = cr_author c).
Proof.
  assert (E : _format_content_item (JDict (record_entries c))
    = inr (mkContentRecord (cr_id c) (cr_title c) (cr_excerpt c)
             (cr_content c) (cr_url c) (cr_date c) (author_of (cr_author c))
             (cr_type c) (cr_slug c))).
  { unfold author_of, field. cbn. destruct (cr_author c); reflexivity. }
  split; [exact E |]. split.
  - intros name Hn. eexists. split; [exact E |]. cbn. now rewrite Hn.
  - rewrite E. split.
    + intros H. injection H as H. apply (f_equal cr_author) in H.
      exact H.
    + intros H. rewrite H. destruct c; reflexivity.
Qed.

(** * The text sent for analysis *)

(** Two records agree on the fields the numbered list shows. *)
Definition same_prompt_fields (c1 c2 : ContentRecord) : Prop :=
  cr_title c1 = cr_title c2 /\ cr_excerpt c1 = cr_excerpt c2 /\
  cr_url c1 = cr_url c2 /\ cr_author c1 = cr_author c2 /\
  cr_date c1 = cr_date c2.

Lemma format_entries_fields (l1 l2 : list ContentRecord) :
  Forall2 same_prompt_fields l1 l2 ->
  forall i, format_entries i l1 = format_entries i l2.
Proof.
  induction 1 as [| c1 c2 l1 l2 (T & X & U & A & D) _ IH]; intros i;
    cbn [format_entries]; [reflexivity |].
  unfold format_entry. now rewrite T, X, U, A, D, IH.
Qed.

(** X6.  The text sent to the analysis request shows the title, the
    excerpt, the URL, the author and the date of each record and nothing
    else: records that differ only in [id], [content], [type] or [slug]
    give the same text.  The full content of a post is never sent. *)
Theorem prompt_ignores_other_fields (l1 l2 : list ContentRecord) :
  Forall2 same_prompt_fields l1 l2 ->
  _format_results_for_ai l1 = _format_results_for_ai l2.
Proof.
  intros F. unfold _format_results_for_ai.
  destruct F as [| c1 c2 l1 l2 H F]; [reflexivity |].
  now rewrite (format_entries_fields (Forall2_cons _ _ H F)).
Qed.

(** A value that [[:200]] accepts. *)
Definition sliceable (v : json) : Prop :=
  match v with
  | JStr _ | JList _ => True
  | _ => False
  end.

Lemma format_entries_sliceable (l : list ContentRecord) (i : Z) :
  (exists xs, format_entries i l = inr xs) <->
  Forall (fun c => sliceable (cr_excerpt c)) l.
Proof.
  revert i. induction l as [| c l IH]; intros i; cbn [format_entries].
  - split; eauto.
  - unfold format_entry.
    destruct (cr_excerpt c) eqn:X; cbn [py_slice_200 res_bind];
      try (split; [intros (xs & E); discriminate
                  | intros F; inversion F as [| ? ? S _]; subst;
                    rewrite X in S; contradiction]).
    + destruct (IH (i + 1)) as [I1 I2]. split.
      * intros (xs & E).
        destruct (format_entries (i + 1) l) as [e | ys];
          cbn [res_bind] in E; [discriminate |].
        constructor; [rewrite X; exact I | eauto].
      * intros F. inversion F as [| ? ? _ F']; subst.
        destruct (I2 F') as (ys & ->). cbn. eauto.
    + destruct (IH (i + 1)) as [I1 I2]. split.
      * intros (xs & E).
        destruct (format_entries (i + 1) l) as [e | ys];
          cbn [res_bind] in E; [discriminate |].
        constructor; [rewrite X; exact I | eauto].
      * intros F. inversion F as [| ? ? _ F']; subst.
        destruct (I2 F') as (ys & ->). cbn. eauto.
Qed.

Lemma format_results_sliceable (l : list ContentRecord) :
  (exists f, _format_results_for_ai l = inr f) <->
  Forall (fun c => sliceable (cr_excerpt c)) l.
Proof.
  unfold _format_results_for_ai. destruct l as [| c l].
  - split; eauto.
  - rewrite <- (format_entries_sliceable (c :: l) 1).
    destruct (format_entries 1 (c :: l)) as [e | xs]; cbn [res_bind].
    + split; intros (x & E); discriminate.
    + split; eauto.
Qed.

(** X7.  [_format_results_for_ai] returns a text exactly when the
    excerpt of every record is a string or a list; one record whose
    excerpt is null, a number or an object makes it raise.  In
    particular the records of raw items without an [excerpt] entry
    always format. *)
Theorem format_results_needs_text_excerpts (l : list ContentRecord) :
  ((exists f, _format_results_for_ai l = inr f) <->
   Forall (fun c => sliceable (cr_excerpt c)) l) /\
  (forall items,
     Forall (fun d => assoc "excerpt" d = None) items ->
     res_map _format_content_item (map JDict items) = inr l ->
     exists f, _format_results_for_ai l = inr f).
Proof.
  split; [apply format_results_sliceable |].
  intros items F E. apply format_results_sliceable.
  revert l E. induction F as [| d items Hd _ IH]; intros l E;
    cbn [map res_map] in E.
  - inversion E. constructor.
  - destruct (format_content_item_dict d) as (c & Ec).
    rewrite Ec in E. cbn [res_bind] in E.
    destruct (res_map _format_content_item (map JDict items)) as [e | cs];
      cbn [res_bind] in E; [discriminate |].
    inversion E; subst. constructor; [| now apply IH].
    cbn in Ec. inversion Ec; subst. cbn. rewrite Hd. exact I.
Qed.

(** X8.  When the records fetched for a tool invocation hold an excerpt
    that is not text, the attempt raises after the content GET: no
    analysis request is issued, the records are dropped, and the
    cascade goes on with the next model. *)
Theorem unformattable_records_abandon_attempt (q : string) (mr : json)
  (m : string) (rest : list string) (h : list request)
  (resp message tc p : json) (a : json * json) (rs : list ContentRecord) :
  decoded (net h (ChatTool m q)) = inr resp ->
  message_of resp = inr message ->
  invocation_of message = inr (Some tc) ->
  decoded_arguments tc q mr = inr a ->
  py_min_100 (limit_of (snd a)) = inr p ->
  fetch_result (fst a) (limit_of (snd a))
               (net (h ++ [ChatTool m q])%list (WpList p)) = inr rs ->
  ~ Forall (fun c => sliceable (cr_excerpt c)) rs ->
  (exists e,
     run (_search_with_model q mr m) h
     = (inl e, (h ++ [ChatTool m q; WpList p])%list)) /\
  run (cascade q mr (m :: rest)) h
  = run (cascade q mr rest) (h ++ [ChatTool m q; WpList p])%list.
Proof.
  intros Edec Emsg Einv Eargs Emin Efetch Hbad.
  assert (E : exists e,
    run (_search_with_model q mr m) h
    = (inl e, (h ++ [ChatTool m q; WpList p])%list)).
  { rewrite run_search_with_model, Edec, run_process_ai_response, Emsg,
      Einv, run_execute_tool_call, Eargs, Emin.
    cbv zeta. rewrite Efetch.
    destruct (_format_results_for_ai rs) as [e | f] eqn:Ef.
    - rewrite <- app_assoc. cbn [app]. eauto.
    - exfalso. apply Hbad. apply format_results_sliceable. eauto. }
  split; [exact E |].
  destruct E as (e & E). now rewrite run_cascade_cons, E.
Qed.

(** * Several tool calls in one message *)

(** A tool call that names the retrieval tool. *)
Definition names_retrieval_tool (tool_call : json) : Prop :=
  exists f name,
    py_getitem tool_call "function" = inr f /\
    py_getitem f "name" = inr name /\
    py_eq_str name retrieval_tool = true.

Lemma find_invocation_first (pre post : list json) (tc : json) :
  Forall names_other_tool pre ->
  names_retrieval_tool tc ->
  find_invocation (pre ++ tc :: post) = inr (Some tc).
Proof.
  intros F (f & name & Ef & En & Eq).
  induction F as [| c pre (f' & name' & Ef' & En' & Eq') _ IH];
    cbn [app find_invocation].
  - rewrite Ef. cbn [res_bind]. rewrite En. cbn [res_bind]. now rewrite Eq.
  - rewrite Ef'. cbn [res_bind]. rewrite En'. cbn [res_bind].
    now rewrite Eq'.
Qed.

(** X9.  Of the tool calls of a message only the first one that names
    the retrieval tool is executed: calls to other tools before it are
    skipped, and whatever follows it, further retrieval calls included,
    is never looked at. *)
Theorem only_first_retrieval_call_runs (r : json) (q : string) (mr : json)
  (pre post : list json) (tc : json) (h : list request) :
  Forall names_other_tool pre ->
  names_retrieval_tool tc ->
  run (tool_calls_loop r q mr (pre ++ tc :: post)) h
  = run (tool_calls_loop r q mr [tc]) h.
Proof.
  intros F T.
  rewrite !run_tool_calls_loop.
  rewrite (find_invocation_first post F T).
  change [tc] with ([] ++ [tc])%list.
  now rewrite (find_invocation_first [] (Forall_nil _) T).
Qed.

(** * The requests of a search *)

Lemma execute_tool_call_budget (r : json) (q : string) (mr tc : json)
  (h : list request) :
  exists l,
    snd (run (execute_tool_call r q mr tc) h) = (h ++ l)%list /\
    (length l <= 2)%nat.
Proof.
  rewrite run_execute_tool_call.
  destruct (decoded_arguments tc q mr) as [e | a].
  { exists []. rewrite app_nil_r. auto. }
  destruct (py_min_100 _) as [e | p].
  { exists []. rewrite app_nil_r. auto. }
  cbv zeta.
  destruct (fetch_result _ _ _) as [e | rs]; [exists [WpList p]; auto |].
  destruct (_format_results_for_ai rs) as [e | f];
    [exists [WpList p]; auto |].
  exists [WpList p; ChatAnalysis current_model q f].
  rewrite <- app_assoc.
  destruct (analysis_result _) as [e | text]; [auto |].
  destruct (py_getitem r "model"); auto.
Qed.

Lemma attempt_budget (q : string) (mr : json) (m : string)
  (h : list request) :
  exists l,
    snd (run (_search_with_model q mr m) h) = (h ++ l)%list /\
    (length l <= 3)%nat.
Proof.
  rewrite run_search_with_model.
  destruct (decoded (net h (ChatTool m q))) as [e | r].
  { exists [ChatTool m q]. auto. }
  rewrite run_process_ai_response.
  assert (One : forall (x : res SearchResult),
    exists l, snd (x, (h ++ [ChatTool m q])%list) = (h ++ l)%list /\
              (length l <= 3)%nat).
  { intros x. exists [ChatTool m q]. cbn. auto. }
  destruct (message_of r) as [e | message]; [apply One |].
  destruct (invocation_of message) as [e | [tc |]]; [apply One | |].
  - destruct (execute_tool_call_budget r q mr tc (h ++ [ChatTool m q])%list)
      as (l & E & L).
    exists (ChatTool m q :: l).
    destruct (run (execute_tool_call r q mr tc) _) as [[e | x] h'];
      cbn [snd] in *; subst h'; rewrite <- app_assoc; cbn; split;
      (reflexivity || lia).
  - destruct (direct_answer r message q); apply One.
Qed.

Lemma cascade_budget (q : string) (mr : json) (models : list string)
  (h : list request) :
  exists l,
    snd (run (cascade q mr models) h) = (h ++ l)%list /\
    (length l <= 3 * length models + 1)%nat.
Proof.
  revert h. induction models as [| m models IH]; intros h.
  - cbn [cascade]. rewrite run_fallback_search, run_search_content.
    destruct (py_min_100 (limit_of mr)) as [e | p].
    + exists []. rewrite app_nil_r. destruct e; cbn; auto.
    + exists [WpList p].
      destruct (fetch_result _ _ _) as [e | rs]; [destruct e |]; cbn; auto.
  - rewrite run_cascade_cons.
    destruct (attempt_budget q mr m h) as (l & E & L).
    destruct (run (_search_with_model q mr m) h) as [[e | x] h'];
      cbn [snd] in E; subst h'.
    + destruct (IH (h ++ l)%list) as (l' & E' & L').
      exists (l ++ l')%list. rewrite E', app_assoc. split; [reflexivity |].
      rewrite length_app. cbn [length]. lia.
    + exists l. split; [reflexivity |]. cbn [length]. lia.
Qed.

(** X10.  A search issues at most three requests per model of the
    cascade (the tool request, the content GET, the analysis request)
    and one more for the fallback fetch. *)
Theorem search_request_budget (q : string) (mr : option Z) (s : state) :
  exists added,
    log_after (search q mr) s = (trace s ++ added)%list /\
    (length added <= 3 * (1 + length fallback_models) + 1)%nat.
Proof.
  pose proof (run_search q mr s) as R.
  destruct (cascade_budget q (JInt (requested mr))
              (current_model :: fallback_models) (trace s)) as (l & E & L).
  rewrite R in E. cbn [snd] in E. exists l. split; [exact E |].
  cbn [length] in L. lia.
Qed.

(** X11.  When every model of the cascade fails, the tool requests of
    the search went to every entry of [[current_model] +
    fallback_models], in this order, a model that is listed twice being
    asked twice, and the last request is the fallback GET with
    [per_page = min(max_results, 100)]. *)
Theorem exhausted_cascade_log (q : string) (mr : option Z) (s : state)
  (h1 : list request) :
  attempts_fail q (JInt (requested mr)) (current_model :: fallback_models)
                (trace s) h1 ->
  log_after (search q mr) s
  = (h1 ++ [WpList (JInt (Z.min (requested mr) 100))])%list /\
  exists added,
    h1 = (trace s ++ added)%list /\
    tool_models added = current_model :: fallback_models.
Proof.
  intros F. pose proof (run_search q mr s) as R.
  rewrite <- (app_nil_r (current_model :: fallback_models)) in R.
  rewrite (cascade_skips _ _ _ _ _ _ F) in R. cbn [cascade] in R.
  rewrite run_fallback_search, run_search_content in R.
  cbn [limit_of py_min_100] in R.
  assert (Em : (if 100 <? requested mr then 100 else requested mr)
               = Z.min (requested mr) 100).
  { destruct (100 <? requested mr) eqn:E;
      [apply Z.ltb_lt in E | apply Z.ltb_ge in E]; lia. }
  rewrite Em in R. split.
  - destruct (fetch_result _ _ _) as [e | rs]; [destruct e |];
      now inversion R.
  - apply (attempts_fail_log _ _ _ _ _ F).
Qed.

(** A result echoes the query, and holds records only if the log shows
    a content GET among the requests added. *)
Definition well_sourced (q : string) (h h' : list request)
  (r : SearchResult) : Prop :=
  query r = q /\
  (results r = [] \/
   exists l p, h' = (h ++ l)%list /\ In (WpList p) l).

Lemma attempt_well_sourced (q : string) (mr : json) (m : string)
  (h h' : list request) (r : SearchResult) :
  run (_search_with_model q mr m) h = (inr r, h') -> well_sourced q h h' r.
Proof.
  rewrite run_search_with_model.
  destruct (decoded (net h (ChatTool m q))) as [e | resp]; [discriminate |].
  rewrite run_process_ai_response.
  destruct (message_of resp) as [e | message]; [discriminate |].
  destruct (invocation_of message) as [e | [tc |]]; [discriminate | |].
  - rewrite run_execute_tool_call.
    destruct (decoded_arguments tc q mr) as [e | a]; [discriminate |].
    destruct (py_min_100 _) as [e | p]; [discriminate |].
    cbv zeta.
    destruct (fetch_result _ _ _) as [e | rs]; [discriminate |].
    destruct (_format_results_for_ai rs) as [e | f]; [discriminate |].
    destruct (analysis_result _) as [e | text]; [discriminate |].
    destruct (py_getitem resp "model") as [e | model]; [discriminate |].
    intros E. inversion E; subst. split; [reflexivity |]. right.
    exists [ChatTool m q; WpList p; ChatAnalysis current_model q f], p.
    split; [now rewrite <- !app_assoc | cbn; auto].
  - unfold direct_answer.
    destruct (py_get message "content" _) as [e | content];
      cbn [res_bind]; [discriminate |].
    destruct (py_getitem resp "model") as [e | model];
      cbn [res_bind]; [discriminate |].
    intros E. inversion E. split; [reflexivity | now left].
Qed.

Lemma cascade_well_sourced (q : string) (mr : json) (models : list string)
  (h h' : list request) (r : SearchResult) :
  run (cascade q mr models) h = (inr r, h') -> well_sourced q h h' r.
Proof.
  revert h. induction models as [| m models IH]; intros h.
  - cbn [cascade]. rewrite run_fallback_search, run_search_content.
    destruct (py_min_100 (limit_of mr)) as [e | p].
    + destruct e; intros E; inversion E; split; auto.
    + destruct (fetch_result _ _ _) as [e | rs].
      * destruct e; intros E; inversion E; split; auto.
      * intros E. inversion E; subst. split; [reflexivity |]. right.
        exists [WpList p], p. cbn. auto.
  - rewrite run_cascade_cons.
    destruct (attempt_log q mr m h) as (aux & T & _).
    destruct (run (_search_with_model q mr m) h) as [[e | x] h1] eqn:E;
      cbn [snd] in T.
    + intros E'. destruct (IH _ E') as [Q [Z | (l & p & -> & Hin)]];
        split; auto.
      right. subst h1. exists (ChatTool m q :: aux ++ l)%list, p.
      split; [now rewrite <- app_assoc |].
      right. apply in_or_app. now right.
    + intros E'. inversion E'; subst. eapply attempt_well_sourced; eauto.
Qed.

(** X12.  Whatever path produced it, the result of [search] carries the
    user's query unchanged and a count equal to the number of its
    records, and it holds records only when this very search issued a
    content GET. *)
Theorem search_result_is_well_sourced (q : string) (mr : option Z)
  (s : state) (r : SearchResult) :
  returned (search q mr) s = inr r ->
  query r = q /\
  total_results r = len (results r) /\
  (results r <> [] ->
   exists l p,
     log_after (search q mr) s = (trace s ++ l)%list /\ In (WpList p) l).
Proof.
  intros E. pose proof (run_search q mr s) as R. rewrite E in R.
  destruct (cascade_well_sourced _ _ _ R) as [Q W].
  destruct (@cascade_origin _ _ _ _ _ _ (incl_refl _) R) as [T _].
  split; [exact Q |]. split; [exact T |].
  intros Hne. destruct W as [Z | W]; [contradiction | exact W].
Qed.

(** * Responses that answer and still fail *)

(** X19.  A message whose [tool_calls] entry is not iterable (null, a
    number, a boolean) makes the attempt raise [TypeError], whatever
    text the message holds: the cascade goes on with the next model
    instead of returning the model's direct answer. *)
Theorem uniterable_tool_calls_abandon_attempt (q : string) (mr : json)
  (m : string) (rest : list string) (h : list request) (resp v : json)
  (msg : list (string * json)) (e : exn) :
  decoded (net h (ChatTool m q)) = inr resp ->
  message_of resp = inr (JDict msg) ->
  assoc "tool_calls" msg = Some v ->
  py_iter v = inl e ->
  run (_search_with_model q mr m) h
  = (inl e, (h ++ [ChatTool m q])%list) /\
  run (cascade q mr (m :: rest)) h
  = run (cascade q mr rest) (h ++ [ChatTool m q])%list.
Proof.
  intros Edec Emsg Etc Eit.
  assert (E : run (_search_with_model q mr m) h
              = (inl e, (h ++ [ChatTool m q])%list)).
  { rewrite run_search_with_model, Edec, run_process_ai_response, Emsg.
    unfold invocation_of. cbn [py_contains py_getitem res_bind].
    rewrite Etc. cbn [res_bind]. rewrite Eit. cbn [res_bind].
    destruct v; cbn in Eit; inversion Eit; reflexivity. }
  split; [exact E |]. now rewrite run_cascade_cons, E.
Qed.

(** X20.  The [model] entry of a response is read last: when a response
    that invokes the tool has none, the content is fetched and the
    analysis is requested all the same, and only then the attempt
    raises [AIError] and the cascade goes on, the records and the
    analysis being dropped. *)
Theorem missing_model_field_wastes_attempt (q : string) (mr : json)
  (m : string) (rest : list string) (h : list request)
  (resp message tc p text : json) (a : json * json)
  (rs : list ContentRecord) (f : string) (e : exn) :
  let h2 := (h ++ [ChatTool m q])%list in
  let h3 := (h2 ++ [WpList p])%list in
  let h4 := (h3 ++ [ChatAnalysis current_model q f])%list in
  decoded (net h (ChatTool m q)) = inr resp ->
  message_of resp = inr message ->
  invocation_of message = inr (Some tc) ->
  decoded_arguments tc q mr = inr a ->
  py_min_100 (limit_of (snd a)) = inr p ->
  fetch_result (fst a) (limit_of (snd a)) (net h2 (WpList p)) = inr rs ->
  _format_results_for_ai rs = inr f ->
  analysis_result (net h3 (ChatAnalysis current_model q f)) = inr text ->
  py_getitem resp "model" = inl e ->
  (exists msg, run (_search_with_model q mr m) h = (inl (AIError msg), h4)) /\
  run (cascade q mr (m :: rest)) h = run (cascade q mr rest) h4.
Proof.
  intros h2 h3 h4 Edec Emsg Einv Eargs Emin Efetch Efmt Ean Emodel.
  assert (E : exists msg,
    run (_search_with_model q mr m) h = (inl (AIError msg), h4)).
  { rewrite run_search_with_model, Edec, run_process_ai_response, Emsg,
      Einv, run_execute_tool_call, Eargs, Emin.
    cbv zeta. fold h2. rewrite Efetch, Efmt. fold h3. rewrite Ean, Emodel.
    fold h4.
    destruct resp;
      try (unfold message_of in Emsg; cbn in Emsg; discriminate).
    cbn in Emodel.
    destruct (assoc "model" d); inversion Emodel; subst. cbn. eauto. }
  split; [exact E |].
  destruct E as (msg & E). now rewrite run_cascade_cons, E.
Qed.

(** The content endpoint answers no request. *)
Definition content_endpoint_down : Prop :=
  forall h p, exists e, decoded (net h (WpList p)) = inl e.

(** X21.  When the content endpoint is down, [search] still returns,
    and what it returns holds no record and a count of 0: a model that
    invokes the tool is abandoned, and the fallback turns the failure
    into the [error] result. *)
Theorem content_outage_returns_no_records (q : string) (n : Z) (s : state) :
  content_endpoint_down ->
  exists r,
    returned (search q (Some n)) s = inr r /\
    results r = [] /\ total_results r = 0.
Proof.
  intros D.
  assert (W : content_endpoint_well_formed).
  { intros h p v E. destruct (D h p) as (e & E'). congruence. }
  pose proof (run_search q (Some n) s) as R. cbn [requested] in R.
  destruct (cascade_returns q n (current_model :: fallback_models)
              (trace s) W) as (r & h' & E).
  rewrite E in R. inversion R as [[R1 R2]]. exists r.
  split; [reflexivity |].
  destruct (@cascade_origin _ _ _ _ _ _ (incl_refl _) E)
    as [T [Z | (lim0 & _ & q0 & h0 & p & _ & Ef)]].
  - split; [exact Z |]. rewrite T, Z. reflexivity.
  - unfold fetch_result in Ef. destruct (D h0 p) as (e & Ed).
    rewrite Ed in Ef. discriminate.
Qed.

End Pipeline.

(** * Concrete worlds

    Small networks on which the theorems are exercised and the claims
    that fail are refuted. *)

Module Demo.

Definition dquote : string := String (ascii_of_nat 34) "".

(** The arguments text of a tool call asking for three results. *)
Definition three_results : string :=
  "{" ++ dquote ++ "maxResults" ++ dquote ++ ": 3}".

(** [json.loads] on the three texts the examples use; every other text
    is taken as malformed. *)
Definition loads (s : string) : option json :=
  if String.eqb s "{}" then Some (JDict [])
  else if String.eqb s three_results then Some (JDict [("maxResults", JInt 3)])
  else None.

(** [str] on strings, integers, [None] and booleans, the only values
    the examples format. *)
Definition show (v : json) : string :=
  match v with
  | JStr s => s
  | JInt n => NilZero.string_of_int (Z.to_int n)
  | JNull => "None"
  | JBool true => "True"
  | JBool false => "False"
  | _ => "?"
  end.

Definition no_lag (k : nat) : Q := 0.

Definition start : state := mkState [] 0 0 0.

Definition post_entries (n : Z) (who : string) : list (string * json) :=
  [("id", JInt n); ("title", JStr "Post"); ("excerpt", JStr "An excerpt");
   ("author", JDict [("name", JStr who)])].

Definition post (n : Z) (who : string) : json := JDict (post_entries n who).

Definition raw_corpus : list (list (string * json)) :=
  [post_entries 1 "Ann"; post_entries 2 "Bob"; post_entries 3 "Cy";
   post_entries 4 "Di"].

Definition corpus : list json := map JDict raw_corpus.

(** A completion response whose message invokes the retrieval tool. *)
Definition tool_response (model arguments : string) : json :=
  JDict [("model", JStr model);
         ("choices",
          JList [JDict [("message",
            JDict [("content", JNull);
                   ("tool_calls",
                    JList [JDict [("function",
                      JDict [("name", JStr "search_wordpress");
                             ("arguments", JStr arguments)])]])])]])].

(** A completion response whose message is plain text. *)
Definition text_response (model text : string) : json :=
  JDict [("model", JStr model);
         ("choices",
          JList [JDict [("message", JDict [("content", JStr text)])]])].

Definition ok (v : json) : http_reply := Reply 200 "OK" (JSON v).

(** The content endpoint that returns the first [per_page] posts. *)
Definition honest_content (p : json) : http_reply :=
  ok (JList (firstn (Z.to_nat (per_page_value p)) corpus)).

(** A network keyed on the model names: [down] does not answer,
    [chatty] answers in plain text, [garbled] sends arguments that are
    not JSON, [greedy] asks for three results, [alias] reports another
    model name than the one requested, every other model invokes the
    tool with empty arguments. *)
Definition net (h : list request) (r : request) : http_reply :=
  match r with
  | ChatTool m _ =>
      if String.eqb m "down" then NoReply "connection refused"
      else if String.eqb m "chatty"
      then ok (text_response m "I do not need to search for that")
      else if String.eqb m "garbled" then ok (tool_response m "not json")
      else if String.eqb m "greedy" then ok (tool_response m three_results)
      else if String.eqb m "alias"
      then ok (tool_response "provider/alias-v2" "{}")
      else ok (tool_response m "{}")
  | ChatAnalysis _ _ _ => ok (text_response "analyst" "Here is the answer.")
  | WpList p => honest_content p
  | WpItem i =>
      if i =? 1 then ok (post 1 "Ann")
      else if i =? 2 then Reply 404 "404 Client Error: Not Found" (NotJSON "")
      else ok (JList [])
  | WpPing => ok (JList [])
  end.


(** A content endpoint that wraps its list in an object, behind models
    that do not answer. *)
Definition net_wrapped (h : list request) (r : request) : http_reply :=
  match r with
  | WpList _ => ok (JDict [("posts", JList corpus)])
  | _ => NoReply "connection refused"
  end.

(** Has the log an analysis request? *)
Definition analysed (h : list request) : bool :=
  existsb (fun r => match r with ChatAnalysis _ _ _ => true | _ => false end)
          h.

(** Every model invokes the tool; the analysis endpoint answers 200
    with an error object instead of a completion; the content endpoint
    stops answering once an analysis was asked for. *)
Definition net_flaky (h : list request) (r : request) : http_reply :=
  match r with
  | ChatTool m _ => ok (tool_response m "{}")
  | ChatAnalysis _ _ _ => ok (JDict [("error", JStr "overloaded")])
  | WpList p => if analysed h then NoReply "gone" else honest_content p
  | _ => NoReply "connection refused"
  end.

(** Every model invokes the tool; the analysis endpoint times out. *)
Definition net_outage (h : list request) (r : request) : http_reply :=
  match r with
  | ChatTool m _ => ok (tool_response m "{}")
  | ChatAnalysis _ _ _ => NoReply "timed out"
  | WpList p => honest_content p
  | _ => NoReply "connection refused"
  end.

(** A content endpoint that returns 101 posts whatever [per_page]
    says, behind models that do not answer. *)
Definition net_crowded (h : list request) (r : request) : http_reply :=
  match r with
  | WpList _ => ok (JList (repeat (post 1 "Ann") 101))
  | _ => NoReply "connection refused"
  end.

(** ** The claims that fail, at concrete inputs *)

(** C1 fails twice.  One result is requested, the tool invocation
    asks for three, and three are returned.  And 150 results are
    requested from a content endpoint that returns 101 posts whatever
    [per_page] says: the GET asks for 100, and 101 are returned. *)
Lemma tool_limit_overrides_request :
  (exists r,
     returned (search net no_lag loads show "greedy" [] 5 "news" (Some 1))
              start = inr r /\
     len (results r) = 3 /\ 1 < len (results r)) /\
  (exists r,
     returned (search net_crowded no_lag loads show "primary" [] 5 "news"
                      (Some 150)) start = inr r /\
     len (results r) = 101 /\ 100 < len (results r)) /\
  log_after (search net_crowded no_lag loads show "primary" [] 5 "news"
                    (Some 150)) start
  = [ChatTool "primary" "news"; WpList (JInt 100)].
Proof.
  split; [| split].
  - eexists. split; [vm_compute; reflexivity |].
    split; reflexivity.
  - eexists. split; [vm_compute; reflexivity |].
    split; reflexivity.
  - vm_compute. reflexivity.
Qed.

(** C2 fails: no model answers and the content endpoint wraps its list
    in an object; [search] raises [AttributeError]. *)
Lemma search_raises_on_wrapped_content :
  returned (search net_wrapped no_lag loads show "primary" ["backup"] 5
                   "news" (Some 2)) start
  = inl no_get.
Proof. vm_compute. reflexivity. Qed.

(** C3 fails in its last part: the primary does not answer, the first
    fallback [alias] succeeds, and [model_used] is the name its response
    reports, not [alias]. *)
Lemma model_used_is_the_reported_name :
  net [] (ChatTool "down" "news") = NoReply "connection refused" /\
  exists r,
    returned (search net no_lag loads show "down" ["alias"] 5 "news"
                     (Some 2)) start = inr r /\
    model_used r = JStr "provider/alias-v2" /\
    model_used r <> JStr "alias".
Proof.
  split; [reflexivity |].
  eexists. split; [vm_compute; reflexivity |].
  split; [reflexivity | discriminate].
Qed.

(** C4 fails: an arguments string that is not JSON makes the attempt
    raise, and [search] falls back to the direct fetch. *)
Lemma malformed_arguments_abandon_attempt :
  (exists msg,
     returned (_search_with_model net no_lag loads show "garbled" 5 "news"
                                  (JInt 2) "garbled") start
     = inl (AIError msg)) /\
  exists r,
    returned (search net no_lag loads show "garbled" [] 5 "news" (Some 2))
             start = inr r /\
    model_used r = JStr "fallback".
Proof.
  split; eexists; [vm_compute; reflexivity |].
  split; [vm_compute; reflexivity | reflexivity].
Qed.

(** C5 fails: the tool invocation of [primary] succeeds and two records
    are fetched, the analysis response has no [choices], and the cascade
    goes on to [backup]; the result in the end holds no record. *)
Lemma malformed_analysis_continues_cascade :
  exists rs,
    returned (search_content net_flaky no_lag 5 (JStr "news") (JInt 2))
             (at_log [ChatTool "primary" "news"]) = inr rs /\
    length rs = 2%nat /\
    exists r,
      returned (search net_flaky no_lag loads show "primary" ["backup"] 5
                       "news" (Some 2)) start = inr r /\
      results r = [] /\
      model_used r = JStr "error" /\
      tool_models
        (log_after (search net_flaky no_lag loads show "primary" ["backup"]
                           5 "news" (Some 2)) start)
      = ["primary"; "backup"].
Proof.
  eexists. split; [vm_compute; reflexivity |].
  split; [reflexivity |].
  eexists. split; [vm_compute; reflexivity |].
  repeat split; vm_compute; reflexivity.
Qed.

(** C7 fails: the body is a JSON list, and [get_content_by_id] raises
    [AttributeError]. *)
Lemma get_content_by_id_raises_on_list :
  returned (get_content_by_id net no_lag 3) start = inl no_get.
Proof. vm_compute. reflexivity. Qed.

(** ** The theorems at concrete inputs *)

Lemma net_honours_per_page : upstream_honours_per_page net.
Proof.
  intros h p v items Edec Eit. cbn in Edec. inversion Edec; subst.
  cbn in Eit. inversion Eit; subst.
  unfold len. rewrite length_firstn. lia.
Qed.

Lemma net_well_formed : content_endpoint_well_formed net.
Proof.
  intros h p v Edec.
  change (decoded (net h (WpList p)))
    with (@inr exn json
            (JList (firstn (Z.to_nat (per_page_value p)) corpus))) in Edec.
  inversion Edec; subst.
  exists (firstn (Z.to_nat (per_page_value p)) raw_corpus).
  unfold corpus. now rewrite firstn_map.
Qed.

(** C1: two results are requested from [plain], whose invocation has
    no [maxResults]; a result is returned, it was produced by that
    invocation, and it holds at most two records. *)
Lemma results_bounded_witness :
  exists r,
    returned (search net no_lag loads show "plain" ["down"] 5 "news"
                     (Some 2)) start = inr r /\
    produced_by_invocation net no_lag loads show "plain" ["down"] 5
      "news" (JInt 2) start r (JStr "news", JInt 2) /\
    len (results r) <= 2 /\ len (results r) <= 100.
Proof.
  destruct (@results_bounded net no_lag loads show "plain" ["down"] 5
              "news" 2 start eq_refl) as (Tot & Bnd & _).
  destruct (Tot net_well_formed) as (r & E).
  destruct (Bnd r E) as (_ & U & K & _).
  exists r. split; [exact E |].
  assert (P : produced_by_invocation net no_lag loads show "plain" ["down"]
                5 "news" (JInt 2) start r (JStr "news", JInt 2)).
  { vm_compute in E. injection E as <-.
    exists [], "plain", ["down"], []. do 4 eexists.
    split; [reflexivity |]. split; [reflexivity |].
    split; [reflexivity |]. split; [reflexivity |].
    split; [reflexivity |]. split; [reflexivity |].
    vm_compute. reflexivity. }
  split; [exact P |].
  split; [apply (K _ P); [reflexivity | lia] | apply U, net_honours_per_page].
Defined.

(** C2: [down] is the only model; the fallback returns the two posts
    fetched for the raw query. *)
Lemma search_total_failure_witness :
  exists rs,
    length rs = 2%nat /\
    returned (search net no_lag loads show "down" [] 5 "news" (Some 2))
             start
    = inr (mkSearchResult "news" rs
             (JStr "Found 2 results for your query. (Fallback search - AI analysis unavailable)")
             (JStr "fallback") 2).
Proof.
  destruct (search_total_failure net no_lag loads show "down" [] 5 "news"
              (Some 2) start) as (_ & F & _).
  destruct (F [ChatTool "down" "news"]) as (Ok & _).
  { do 2 eexists. split; [vm_compute; reflexivity | reflexivity]. }
  eassert (Hrun : run (search_content net no_lag 5 (JStr "news") (JInt 2))
                       [ChatTool "down" "news"] = (inr _, _))
    by (vm_compute; reflexivity).
  specialize (Ok _ _ Hrun).
  eexists. split; [| rewrite Ok; reflexivity]. reflexivity.
Defined.

(** C3: [down] does not answer, [alias] does; the result is that of
    [alias], and the tool requests went to [down], then [alias]. *)
Lemma cascade_priority_witness :
  exists r,
    returned (search net no_lag loads show "down" ["alias"; "plain"] 5
                     "news" (Some 2)) start = inr r /\
    py_getitem (tool_response "provider/alias-v2" "{}") "model"
    = inr (model_used r) /\
    tool_models (log_after (search net no_lag loads show "down"
                                   ["alias"; "plain"] 5 "news" (Some 2))
                           start)
    = ["down"; "alias"].
Proof.
  destruct (cascade_priority net no_lag loads show "down" ["alias"; "plain"]
              5 "news" (Some 2) start) as (_ & _ & _ & W & M).
  edestruct (W ["down"] "alias" ["plain"]) as (R & L & added & E & T).
  { reflexivity. }
  { do 2 eexists. split; [vm_compute; reflexivity | reflexivity]. }
  { vm_compute. reflexivity. }
  eexists. split; [exact R |]. split; [reflexivity |].
  rewrite L. vm_compute. reflexivity.
Defined.

(** C4: empty arguments fall back to the user's query and to the limit
    of the search; the arguments of [garbled] abandon its attempt; and
    the three results [greedy] asks for are what the GET asks for. *)
Lemma tool_arguments_defaults_witness :
  tool_arguments (JDict []) "news" (JInt 2) = inr (JStr "news", JInt 2) /\
  run (cascade net no_lag loads show "garbled" 5 "news" (JInt 2)
               ["garbled"; "plain"]) []
  = run (cascade net no_lag loads show "garbled" 5 "news" (JInt 2)
                 ["plain"]) [ChatTool "garbled" "news"] /\
  exists l,
    snd (run (_search_with_model net no_lag loads show "garbled" 5 "news"
                                 (JInt 2) "greedy") [])
    = ([ChatTool "greedy" "news"; WpList (JInt 3)] ++ l)%list.
Proof.
  destruct (tool_arguments_defaults net no_lag loads show "garbled" 5
              "news" (JInt 2)) as (Q & L & _ & _ & _ & G & D).
  split; [| split].
  - destruct (Q [] eq_refl) as (lim & E1).
    destruct (L [] eq_refl) as (sq & E2).
    rewrite E1 in E2. inversion E2; subst. exact E1.
  - eapply (G "garbled" ["plain"] []); reflexivity.
  - edestruct (D "greedy" []) as (_ & P); [reflexivity .. |].
    destruct (P (JInt 3) eq_refl) as (Log & _). exact Log.
Defined.

(** C5: the analysis request times out; the two records fetched for
    [primary] are returned with the fixed message. *)
Lemma analysis_outage_keeps_records_witness :
  exists rs f,
    length rs = 2%nat /\
    returned (search net_outage no_lag loads show "primary" ["backup"] 5
                     "news" (Some 2)) start
    = inr (mkSearchResult "news" rs
             (JStr "Unable to analyze results at this time.")
             (JStr "primary") 2) /\
    log_after (search net_outage no_lag loads show "primary" ["backup"] 5
                      "news" (Some 2)) start
    = [ChatTool "primary" "news"; WpList (JInt 2);
       ChatAnalysis "primary" "news" f].
Proof.
  edestruct (@analysis_outage_keeps_records
    net_outage no_lag loads show "primary" ["backup"] 5 "news" (Some 2)
    start [] ["backup"] "primary" []) as (R & L).
  1-11: vm_compute; reflexivity.
  do 2 eexists. split; [| split; [rewrite R | rewrite L]; reflexivity].
  reflexivity.
Defined.


(** C8: a raw record whose author is a plain string. *)
Lemma format_content_item_normalizes_witness :
  exists c,
    _format_content_item (JDict [("id", JInt 9); ("author", JStr "Ann")])
    = inr c /\
    cr_author c = JStr "Unknown" /\ cr_type c = JStr "post".
Proof.
  destruct (format_content_item_normalizes
              [("id", JInt 9); ("author", JStr "Ann")])
    as (c & E & _ & A & _ & _ & _ & _ & _ & _ & _ & T & _).
  exists c. split; [exact E |]. split; [apply A; reflexivity | exact T].
Defined.

(** C10: the invocation comes from the fallback [alias]; the analysis
    request goes to the primary [down]. *)
Lemma analysis_goes_to_current_model_witness :
  exists f,
    snd (run (_search_with_model net no_lag loads show "down" 5 "news"
                                 (JInt 2) "alias")
             [ChatTool "down" "news"])
    = [ChatTool "down" "news"; ChatTool "alias" "news"; WpList (JInt 2);
       ChatAnalysis "down" "news" f].
Proof.
  destruct (analysis_goes_to_current_model net no_lag loads show "down"
              ["alias"] 5 "news" (Some 2) start) as (_ & A).
  eexists.
  eapply (A "alias" (JInt 2) [ChatTool "down" "news"]);
    try (vm_compute; reflexivity).
Defined.

End Demo.

(** * Further concrete cases *)

Module Cases.
Import Demo.

(** A content endpoint that ignores [per_page] and always returns the
    four posts; the models behave as in [Demo.net]. *)
Definition net_fixed (h : list request) (r : request) : http_reply :=
  match r with
  | WpList _ => ok (JList corpus)
  | _ => net h r
  end.

(** A content endpoint whose only post has a null excerpt. *)
Definition net_null_excerpt (h : list request) (r : request) : http_reply :=
  match r with
  | WpList _ => ok (JList [JDict [("title", JStr "Post");
                                  ("excerpt", JNull)]])
  | _ => net h r
  end.

(** X3: with a limit of -1 the call returns all but the last post. *)
Lemma search_content_slices_witness :
  exists l,
    returned (search_content net_fixed no_lag 5 (JStr "news") (JInt (-1)))
             start = inr l /\
    len l = 3.
Proof.
  destruct (@search_content_slices net_fixed no_lag 5 (JStr "news") (-1)
              200 "OK" raw_corpus start eq_refl eq_refl)
    as (l & _ & _ & R & _ & _ & L).
  exists (slice_to l (-1)). split; [exact R | exact L].
Defined.

(** X6: two posts that differ in [id], [content], [type] and [slug]. *)
Lemma prompt_ignores_other_fields_witness :
  _format_results_for_ai show
    [mkContentRecord (JInt 1) (JStr "T") (JStr "E") (JStr "long text")
                     (JStr "u") (JStr "d") (JStr "Ann") (JStr "post")
                     (JStr "a")]
  = _format_results_for_ai show
    [mkContentRecord (JInt 2) (JStr "T") (JStr "E") (JStr "")
                     (JStr "u") (JStr "d") (JStr "Ann") (JStr "page")
                     (JStr "b")].
Proof.
  apply prompt_ignores_other_fields.
  repeat constructor.
Defined.

(** X8: [plain] invokes the tool, the post fetched has a null excerpt,
    and the cascade goes on with [chatty]. *)
Lemma unformattable_records_abandon_attempt_witness :
  run (cascade net_null_excerpt no_lag loads show "plain" 5 "news" (JInt 2)
               ["plain"; "chatty"]) []
  = run (cascade net_null_excerpt no_lag loads show "plain" 5 "news"
                 (JInt 2) ["chatty"])
        [ChatTool "plain" "news"; WpList (JInt 2)].
Proof.
  eapply (@unformattable_records_abandon_attempt net_null_excerpt no_lag
            loads show "plain" 5 "news" (JInt 2) "plain" ["chatty"] []).
  1-6: vm_compute; reflexivity.
  intros F. inversion F as [| ? ? S _]. exact S.
Defined.

Definition call_to (name : string) : json :=
  JDict [("function", JDict [("name", JStr name);
                             ("arguments", JStr "{}")])].

(** X9: a call to another tool, the retrieval call, and a second
    retrieval call. *)
Lemma only_first_retrieval_call_runs_witness :
  run (tool_calls_loop net no_lag loads show "plain" 5
         (tool_response "plain" "{}") "news" (JInt 2)
         [call_to "calculator"; call_to "search_wordpress";
          call_to "search_wordpress"]) []
  = run (tool_calls_loop net no_lag loads show "plain" 5
           (tool_response "plain" "{}") "news" (JInt 2)
           [call_to "search_wordpress"]) [].
Proof.
  apply (@only_first_retrieval_call_runs net no_lag loads show "plain" 5
           (tool_response "plain" "{}") "news" (JInt 2)
           [call_to "calculator"] [call_to "search_wordpress"]
           (call_to "search_wordpress") []).
  - constructor; [| constructor].
    do 2 eexists. repeat split; reflexivity.
  - do 2 eexists. repeat split; reflexivity.
Defined.

(** X11: the model [down] is listed twice and asked twice. *)
Lemma exhausted_cascade_log_witness :
  log_after (search net no_lag loads show "down" ["down"] 5 "news"
                    (Some 200)) start
  = [ChatTool "down" "news"; ChatTool "down" "news"; WpList (JInt 100)].
Proof.
  apply (@exhausted_cascade_log net no_lag loads show "down" ["down"] 5
           "news" (Some 200) start
           [ChatTool "down" "news"; ChatTool "down" "news"]).
  do 2 eexists. split; [vm_compute; reflexivity |].
  do 2 eexists. split; [vm_compute; reflexivity | reflexivity].
Defined.

(** X12: the result of a search answered by [plain]. *)
Lemma search_result_is_well_sourced_witness :
  exists r,
    returned (search net no_lag loads show "plain" [] 5 "news" (Some 2))
             start = inr r /\
    query r = "news" /\ total_results r = len (results r).
Proof.
  eexists. split; [vm_compute; reflexivity |].
  edestruct (@search_result_is_well_sourced net no_lag loads show "plain" []
               5 "news" (Some 2) start) as (Q & T & _).
  { vm_compute. reflexivity. }
  split; [exact Q | exact T].
Defined.

(** The model [nullish] answers in text with a null [tool_calls]. *)
Definition net_nullish (h : list request) (r : request) : http_reply :=
  match r with
  | ChatTool m _ =>
      if String.eqb m "nullish"
      then ok (JDict [("model", JStr m);
                      ("choices",
                       JList [JDict [("message",
                         JDict [("content", JStr "Hello");
                                ("tool_calls", JNull)])]])])
      else net h r
  | _ => net h r
  end.

(** X19: the answer of [nullish] is lost and [chatty] is asked. *)
Lemma uniterable_tool_calls_abandon_attempt_witness :
  run (cascade net_nullish no_lag loads show "nullish" 5 "news" (JInt 2)
               ["nullish"; "chatty"]) []
  = run (cascade net_nullish no_lag loads show "nullish" 5 "news" (JInt 2)
                 ["chatty"]) [ChatTool "nullish" "news"].
Proof.
  eapply (@uniterable_tool_calls_abandon_attempt net_nullish no_lag loads
            show "nullish" 5 "news" (JInt 2) "nullish" ["chatty"] []);
    reflexivity.
Defined.



(** The model [anon] invokes the tool in a response without [model]. *)
Definition net_anon (h : list request) (r : request) : http_reply :=
  match r with
  | ChatTool m _ =>
      if String.eqb m "anon"
      then ok (JDict [("choices",
                       JList [JDict [("message",
                         JDict [("tool_calls",
                                 JList [call_to "search_wordpress"])])]])])
      else net h r
  | _ => net h r
  end.

(** X20: [anon] costs a fetch and an analysis before [chatty] is
    asked. *)
Lemma missing_model_field_wastes_attempt_witness :
  exists f,
    run (cascade net_anon no_lag loads show "anon" 5 "news" (JInt 2)
                 ["anon"; "chatty"]) []
    = run (cascade net_anon no_lag loads show "anon" 5 "news" (JInt 2)
                   ["chatty"])
          [ChatTool "anon" "news"; WpList (JInt 2);
           ChatAnalysis "anon" "news" f].
Proof.
  eexists.
  eapply (@missing_model_field_wastes_attempt net_anon no_lag loads show
            "anon" 5 "news" (JInt 2) "anon" ["chatty"] []);
    vm_compute; reflexivity.
Defined.

(** The content endpoint refuses every connection. *)
Definition net_dead (h : list request) (r : request) : http_reply :=
  match r with
  | WpList _ => NoReply "connection refused"
  | _ => net h r
  end.

Lemma net_dead_is_down : content_endpoint_down net_dead.
Proof. intros h p. eexists. reflexivity. Qed.

(** X21: [plain] invokes the tool, the fetch fails twice, and the
    result holds no record. *)
Lemma content_outage_returns_no_records_witness :
  exists r,
    returned (search net_dead no_lag loads show "plain" [] 5 "news"
                     (Some 2)) start = inr r /\
    results r = [] /\ total_results r = 0.
Proof.
  apply (@content_outage_returns_no_records net_dead no_lag loads show
           "plain" [] 5 "news" 2 start net_dead_is_down).
Defined.

End Cases.

(** * Configuration ([src/config.py])

    The environment, as [os.getenv] reads it once [load_dotenv] has run,
    and the library functions [int] and [str.lower] are section
    variables. *)

(** The only exception [Config.__init__] raises. *)
Inductive config_error : Type :=
| ValueError (msg : string).

Record Config : Type := mkConfig {
  openrouter_api_key : string;
  ai_model : string;
  wordpress_api_url : string;
  wordpress_username : string;
  wordpress_password : string;
  max_results : Z;
  request_timeout : Z;
  verbose_logging : bool;
  openrouter_base_url : string;
  fallback_models : list string
}.

Definition default_model : string := "z-ai/glm-4.5-air:free".

Section Configuration.

(** [os.getenv(key)]: [None] when the variable is not set. *)
Variable getenv : string -> option string.

(** [int(text)]: [None] when it raises [ValueError]. *)
Variable py_int : string -> option Z.

(** [text.lower()]. *)
Variable py_lower : string -> string.

Definition _get_required_env (key : string) : config_error + string :=
  match getenv key with
  | None | Some EmptyString =>
      inl (ValueError
             ("Required environment variable " ++ key ++ " is not set"))
  | Some value => inr value
  end.

Definition _get_env (key default : string) : string :=
  match getenv key with
  | Some value => value
  | None => default
  end.

Definition int_of (text : string) : config_error + Z :=
  match py_int text with
  | Some n => inr n
  | None => inl (ValueError ("invalid literal for int() with base 10: "
                             ++ text))
  end.

Definition cfg_bind {A B : Type} (r : config_error + A)
  (f : A -> config_error + B) : config_error + B :=
  match r with
  | inl e => inl e
  | inr a => f a
  end.

(** [Config.__init__], field by field in the order of the source. *)
Definition Config_init : config_error + Config :=
  cfg_bind (_get_required_env "OPENROUTER_API_KEY") (fun key =>
  let model := _get_env "AI_MODEL" default_model in
  cfg_bind (_get_required_env "WORDPRESS_API_URL") (fun url =>
  cfg_bind (_get_required_env "WORDPRESS_USERNAME") (fun username =>
  cfg_bind (_get_required_env "WORDPRESS_PASSWORD") (fun password =>
  cfg_bind (int_of (_get_env "MAX_RESULTS" "5")) (fun results =>
  cfg_bind (int_of (_get_env "REQUEST_TIMEOUT" "30")) (fun timeout =>
  let verbose :=
    String.eqb (py_lower (_get_env "VERBOSE_LOGGING" "false")) "true" in
  inr (mkConfig key model url username password results timeout verbose
         "https://openrouter.ai/api/v1"
         [default_model; "qwen/qwen3-coder:free";
          "moonshotai/kimi-k2:free"]))))))).

(** The truth value of a string. *)
Definition nonempty (s : string) : bool :=
  match s with
  | EmptyString => false
  | _ => true
  end.

(** [Config.validate], assertions enabled: the result, and the line it
    prints when an assertion fails. *)
Definition validate (c : Config) : bool * option string :=
  let failed (why : string) :=
    (false, Some ("Configuration validation failed: " ++ why)) in
  if negb (nonempty (openrouter_api_key c))
  then failed "OpenRouter API key is required"
  else if negb (nonempty (wordpress_api_url c))
  then failed "WordPress API URL is required"
  else if negb (nonempty (wordpress_username c))
  then failed "WordPress username is required"
  else if negb (nonempty (wordpress_password c))
  then failed "WordPress password is required"
  else if negb (0 <? max_results c)
  then failed "Max results must be positive"
  else if negb (0 <? request_timeout c)
  then failed "Request timeout must be positive"
  else (true, None).

(** A required variable is set to a text that is not empty. *)
Definition provided (key : string) : Prop :=
  exists value, getenv key = Some value /\ value <> "".

Lemma get_required_env_provided (key : string) :
  (exists value, _get_required_env key = inr value) <-> provided key.
Proof.
  unfold _get_required_env, provided.
  destruct (getenv key) as [[| c v] |]; split.
  - intros (x & E). discriminate.
  - intros (x & E & N). inversion E; subst. now contradiction N.
  - intros _. eexists. split; [reflexivity | discriminate].
  - eauto.
  - intros (x & E). discriminate.
  - intros (x & E & _). discriminate.
Qed.

Lemma get_required_env_value (key value : string) :
  _get_required_env key = inr value ->
  getenv key = Some value /\ nonempty value = true.
Proof.
  unfold _get_required_env.
  destruct (getenv key) as [[| c v] |]; intros E; inversion E; subst.
  now split.
Qed.

(** X14.  The configuration loads exactly when the four required
    variables are set to non-empty texts and the two numeric settings
    (or their defaults 5 and 30) are accepted by [int]; a required
    variable set to the empty string counts as missing. *)
Theorem config_loads_iff :
  (exists c, Config_init = inr c) <->
  provided "OPENROUTER_API_KEY" /\ provided "WORDPRESS_API_URL" /\
  provided "WORDPRESS_USERNAME" /\ provided "WORDPRESS_PASSWORD" /\
  (exists n, py_int (_get_env "MAX_RESULTS" "5") = Some n) /\
  (exists t, py_int (_get_env "REQUEST_TIMEOUT" "30") = Some t).
Proof.
  rewrite <- !get_required_env_provided. unfold Config_init, int_of.
  destruct (_get_required_env "OPENROUTER_API_KEY") as [e | k];
    cbn [cfg_bind].
  { split; [intros (c & E); discriminate |].
    intros ((x & E) & _). discriminate. }
  destruct (_get_required_env "WORDPRESS_API_URL") as [e | u];
    cbn [cfg_bind].
  { split; [intros (c & E); discriminate |].
    intros (_ & (x & E) & _). discriminate. }
  destruct (_get_required_env "WORDPRESS_USERNAME") as [e | n];
    cbn [cfg_bind].
  { split; [intros (c & E); discriminate |].
    intros (_ & _ & (x & E) & _). discriminate. }
  destruct (_get_required_env "WORDPRESS_PASSWORD") as [e | p];
    cbn [cfg_bind].
  { split; [intros (c & E); discriminate |].
    intros (_ & _ & _ & (x & E) & _). discriminate. }
  destruct (py_int (_get_env "MAX_RESULTS" "5")) as [mr |]; cbn [cfg_bind].
  2:{ split; [intros (c & E); discriminate |].
      intros (_ & _ & _ & _ & (x & E) & _). discriminate. }
  destruct (py_int (_get_env "REQUEST_TIMEOUT" "30")) as [t |];
    cbn [cfg_bind].
  2:{ split; [intros (c & E); discriminate |].
      intros (_ & _ & _ & _ & _ & (x & E)). discriminate. }
  split; [| eauto]. intros _. repeat split; eauto.
Qed.

(** X15.  On a configuration that loaded, [validate] can only fail on
    the numbers: it returns [True] exactly when [max_results] and
    [request_timeout] are positive, the four required texts being
    non-empty already; and when it fails it prints which of the two
    numbers is at fault, [max_results] first. *)
Theorem validate_after_load (c : Config) :
  Config_init = inr c ->
  (fst (validate c) = true <-> 0 < max_results c /\ 0 < request_timeout c) /\
  (max_results c <= 0 ->
   validate c
   = (false, Some "Configuration validation failed: Max results must be positive")) /\
  (0 < max_results c -> request_timeout c <= 0 ->
   validate c
   = (false, Some "Configuration validation failed: Request timeout must be positive")).
Proof.
  unfold Config_init.
  destruct (_get_required_env "OPENROUTER_API_KEY") as [e | k] eqn:Ek;
    cbn [cfg_bind]; [discriminate |].
  destruct (_get_required_env "WORDPRESS_API_URL") as [e | u] eqn:Eu;
    cbn [cfg_bind]; [discriminate |].
  destruct (_get_required_env "WORDPRESS_USERNAME") as [e | n] eqn:En;
    cbn [cfg_bind]; [discriminate |].
  destruct (_get_required_env "WORDPRESS_PASSWORD") as [e | p] eqn:Ep;
    cbn [cfg_bind]; [discriminate |].
  destruct (int_of (_get_env "MAX_RESULTS" "5")) as [e | mr];
    cbn [cfg_bind]; [discriminate |].
  destruct (int_of (_get_env "REQUEST_TIMEOUT" "30")) as [e | t];
    cbn [cfg_bind]; [discriminate |].
  intros E. inversion E; subst. clear E.
  apply get_required_env_value in Ek, Eu, En, Ep.
  destruct Ek as [_ Nk], Eu as [_ Nu], En as [_ Nn], Ep as [_ Np].
  unfold validate.
  cbn [openrouter_api_key wordpress_api_url wordpress_username
       wordpress_password max_results request_timeout].
  rewrite Nk, Nu, Nn, Np. cbn [negb].
  destruct (0 <? mr) eqn:Emr; destruct (0 <? t) eqn:Et; cbn [negb fst];
    try apply Z.ltb_lt in Emr; try apply Z.ltb_ge in Emr;
    try apply Z.ltb_lt in Et; try apply Z.ltb_ge in Et;
    repeat split; intros; try reflexivity; try lia; try discriminate.
Qed.

End Configuration.

(** * The engine under a loaded configuration

    [AISearchEngine.__init__] takes [current_model], [fallback_models]
    and the default limit from the configuration. *)

(** X16.  With [AI_MODEL] unset the primary model is the first of the
    hard-wired fallbacks, and the cascade does not remove duplicates: a
    search in which every model fails has asked the default model twice
    in a row, then the two other fallbacks. *)
Theorem default_cascade_repeats_primary
  (getenv : string -> option string) (py_int : string -> option Z)
  (py_lower : string -> string) (c : Config)
  (net : list request -> request -> http_reply) (lag : nat -> Q)
  (json_loads : string -> option json) (py_str : json -> string)
  (q : string) (mr : option Z) (s : state) (h1 : list request) :
  getenv "AI_MODEL" = None ->
  Config_init getenv py_int py_lower = inr c ->
  attempts_fail net lag json_loads py_str (ai_model c) (max_results c) q
    (JInt (requested (max_results c) mr))
    (ai_model c :: fallback_models c) (trace s) h1 ->
  ~ NoDup (ai_model c :: fallback_models c) /\
  exists added,
    h1 = (trace s ++ added)%list /\
    tool_models added
    = [default_model; default_model; "qwen/qwen3-coder:free";
       "moonshotai/kimi-k2:free"].
Proof.
  intros Eenv Einit F.
  assert (Em : ai_model c :: fallback_models c
               = [default_model; default_model; "qwen/qwen3-coder:free";
                  "moonshotai/kimi-k2:free"]).
  { unfold Config_init in Einit.
    destruct (_get_required_env getenv "OPENROUTER_API_KEY");
      cbn [cfg_bind] in Einit; [discriminate |].
    destruct (_get_required_env getenv "WORDPRESS_API_URL");
      cbn [cfg_bind] in Einit; [discriminate |].
    destruct (_get_required_env getenv "WORDPRESS_USERNAME");
      cbn [cfg_bind] in Einit; [discriminate |].
    destruct (_get_required_env getenv "WORDPRESS_PASSWORD");
      cbn [cfg_bind] in Einit; [discriminate |].
    destruct (int_of py_int _); cbn [cfg_bind] in Einit; [discriminate |].
    destruct (int_of py_int _); cbn [cfg_bind] in Einit; [discriminate |].
    inversion Einit; subst. cbn [ai_model fallback_models].
    unfold _get_env. now rewrite Eenv. }
  split.
  - rewrite Em. intros N. inversion N as [| ? ? Hnot _]; subst.
    apply Hnot. now left.
  - destruct (attempts_fail_log _ _ _ _ _ _ _ _ _ _ _ F)
      as (added & E & T).
    exists added. split; [exact E |]. now rewrite T.
Qed.

(** * Stripping tags ([src/formatters.py])

    A text is a string of bytes; the three characters the pattern
    tells apart ([<], [>] and the line feed, the one character [.] does
    not match) are single bytes in UTF-8 and part of no longer
    sequence. *)

Definition is_char (c : ascii) (s : string) : bool :=
  match s with
  | String c' EmptyString => Ascii.eqb c c'
  | _ => false
  end.

(** What follows the first [>] of a text, when that [>] comes before
    any line break: the rest of the text after a match of [.*?>]. *)
Fixpoint after_tag_close (s : string) : option string :=
  match s with
  | EmptyString => None
  | String c s' =>
      if is_char c ">" then Some s'
      else if is_char c newline then None
      else after_tag_close s'
  end.

(** [re.sub('<.*?>', '', text)], scanning from the left: at a [<] that
    opens a match the match is dropped and the scan goes on behind it;
    any other character is kept.  [fuel] bounds the number of steps. *)
Fixpoint clean_from (fuel : nat) (s : string) : string :=
  match fuel with
  | O => s
  | S fuel' =>
      match s with
      | EmptyString => EmptyString
      | String c s' =>
          if is_char c "<"
          then match after_tag_close s' with
               | Some rest => clean_from fuel' rest
               | None => String c (clean_from fuel' s')
               end
          else String c (clean_from fuel' s')
      end
  end.

Definition _clean_html (html_text : string) : string :=
  clean_from (String.length html_text) html_text.

(** Does the text hold a match of [<.*?>]? *)
Fixpoint has_tag (s : string) : bool :=
  match s with
  | EmptyString => false
  | String c s' =>
      (is_char c "<" &&
       match after_tag_close s' with Some _ => true | None => false end)
      || has_tag s'
  end.

Lemma after_tag_close_shorter (s rest : string) :
  after_tag_close s = Some rest ->
  (String.length rest < String.length s)%nat.
Proof.
  induction s as [| c s IH]; cbn [after_tag_close String.length];
    [discriminate |].
  destruct (is_char c ">"); [intros E; inversion E; subst; lia |].
  destruct (is_char c newline); [discriminate |].
  intros E. apply IH in E. lia.
Qed.

Lemma clean_keeps_open_line (fuel : nat) (s : string) :
  after_tag_close s = None -> after_tag_close (clean_from fuel s) = None.
Proof.
  revert s. induction fuel as [| fuel IH]; intros s; [trivial |].
  destruct s as [| c s]; [trivial |]. cbn [after_tag_close clean_from].
  destruct (is_char c ">") eqn:Eg; [discriminate |].
  destruct (is_char c newline) eqn:En.
  - intros _. destruct (is_char c "<") eqn:El.
    + destruct c as [[] [] [] [] [] [] [] []]; discriminate.
    + cbn [after_tag_close]. now rewrite Eg, En.
  - intros E. destruct (is_char c "<").
    + rewrite E. cbn [after_tag_close]. rewrite Eg, En. now apply IH.
    + cbn [after_tag_close]. rewrite Eg, En. now apply IH.
Qed.

Lemma clean_from_no_tag (fuel : nat) (s : string) :
  (String.length s <= fuel)%nat -> has_tag (clean_from fuel s) = false.
Proof.
  revert s. induction fuel as [| fuel IH]; intros s L.
  - destruct s; [reflexivity | cbn in L; lia].
  - destruct s as [| c s]; [reflexivity |]. cbn [clean_from].
    cbn [String.length] in L.
    destruct (is_char c "<") eqn:El.
    + destruct (after_tag_close s) as [rest |] eqn:Ea.
      * apply IH. apply after_tag_close_shorter in Ea. lia.
      * cbn [has_tag]. rewrite (clean_keeps_open_line fuel s Ea).
        rewrite andb_false_r. cbn [orb]. apply IH. lia.
    + cbn [has_tag]. rewrite El. cbn [andb orb]. apply IH. lia.
Qed.

Lemma clean_from_fixes_plain (fuel : nat) (s : string) :
  has_tag s = false -> clean_from fuel s = s.
Proof.
  revert s. induction fuel as [| fuel IH]; intros s; [trivial |].
  destruct s as [| c s]; [trivial |]. cbn [has_tag clean_from].
  intros H. apply orb_false_iff in H. destruct H as [H1 H2].
  destruct (is_char c "<").
  - destruct (after_tag_close s); [discriminate |]. now rewrite IH.
  - now rewrite IH.
Qed.

Lemma clean_from_shorter (fuel : nat) (s : string) :
  (String.length (clean_from fuel s) <= String.length s)%nat.
Proof.
  revert s. induction fuel as [| fuel IH]; intros s; [cbn; lia |].
  destruct s as [| c s]; [cbn; lia |]. cbn [clean_from].
  destruct (is_char c "<").
  - destruct (after_tag_close s) as [rest |] eqn:Ea.
    + apply after_tag_close_shorter in Ea. specialize (IH rest).
      cbn [String.length]. lia.
    + specialize (IH s). cbn [String.length]. lia.
  - specialize (IH s). cbn [String.length]. lia.
Qed.

(** X17.  [_clean_html] leaves no tag behind: its result holds no [<]
    that is followed by a [>] on the same line, so cleaning a cleaned
    text changes nothing. *)
Theorem clean_html_removes_every_tag (html_text : string) :
  has_tag (_clean_html html_text) = false /\
  _clean_html (_clean_html html_text) = _clean_html html_text.
Proof.
  assert (H : has_tag (_clean_html html_text) = false)
    by (apply clean_from_no_tag; lia).
  split; [exact H |]. now apply clean_from_fixes_plain.
Qed.

(** X18.  [_clean_html] returns a text without tags unchanged, in
    particular a [<] whose [>] only comes after a line break stays; and
    its result is never longer than its input. *)
Theorem clean_html_keeps_plain_text (html_text : string) :
  (has_tag html_text = false -> _clean_html html_text = html_text) /\
  (forall s, after_tag_close s = None ->
     _clean_html (String "<" s) = String "<" (_clean_html s)) /\
  (String.length (_clean_html html_text) <= String.length html_text)%nat.
Proof.
  split; [apply clean_from_fixes_plain |]. split.
  - intros s E. unfold _clean_html. cbn [String.length clean_from is_char].
    cbn [Ascii.eqb Bool.eqb]. now rewrite E.
  - apply clean_from_shorter.
Qed.

(** * Concrete configurations *)

Module Settings.
Import Demo.

(** An environment with the four required variables and a limit of 0. *)
Definition getenv (key : string) : option string :=
  if String.eqb key "OPENROUTER_API_KEY" then Some "sk-test"
  else if String.eqb key "WORDPRESS_API_URL"
  then Some "https://example.org/wp-json/posts"
  else if String.eqb key "WORDPRESS_USERNAME" then Some "editor"
  else if String.eqb key "WORDPRESS_PASSWORD" then Some "secret"
  else if String.eqb key "MAX_RESULTS" then Some "0"
  else None.

(** [int] on the three texts the examples use. *)
Definition to_int (text : string) : option Z :=
  if String.eqb text "0" then Some 0
  else if String.eqb text "5" then Some 5
  else if String.eqb text "30" then Some 30
  else None.

(** [lower] on texts without upper-case letters. *)
Definition lower (text : string) : string := text.

(** X15: the configuration loads with [MAX_RESULTS=0], and [validate]
    reports the limit. *)
Lemma validate_after_load_witness :
  exists c,
    Config_init getenv to_int lower = inr c /\
    validate c
    = (false,
       Some "Configuration validation failed: Max results must be positive").
Proof.
  eexists. split; [vm_compute; reflexivity |].
  eapply (@validate_after_load getenv to_int lower).
  - vm_compute. reflexivity.
  - vm_compute. discriminate.
Defined.

(** X16: no model answers; the default model is asked twice. *)
Lemma default_cascade_repeats_primary_witness :
  exists c,
    Config_init getenv to_int lower = inr c /\
    ~ NoDup (ai_model c :: fallback_models c).
Proof.
  eexists. split; [vm_compute; reflexivity |].
  eapply (@default_cascade_repeats_primary getenv to_int lower _
            net_wrapped no_lag loads show "news" (Some 2) start
            [ChatTool "z-ai/glm-4.5-air:free" "news";
             ChatTool "z-ai/glm-4.5-air:free" "news";
             ChatTool "qwen/qwen3-coder:free" "news";
             ChatTool "moonshotai/kimi-k2:free" "news"]).
  - reflexivity.
  - vm_compute. reflexivity.
  - do 2 eexists. split; [vm_compute; reflexivity |].
    do 2 eexists. split; [vm_compute; reflexivity |].
    do 2 eexists. split; [vm_compute; reflexivity |].
    do 2 eexists. split; [vm_compute; reflexivity | reflexivity].
Defined.

End Settings.
